(** * Course management: the request handlers of [Task1/views.py]

    A shallow embedding of the Django views of the course-enrolment
    application (login, registration, the student dashboard and the
    faculty dashboard) over an explicit model of the relational store,
    the session and the flash messages, followed by the properties that
    the specification states about them. *)

From Stdlib Require Import ZArith String Ascii.
From stdpp Require Import base option gmap strings list fin_maps fin_sets.

Local Open Scope Z_scope.
Local Open Scope string_scope.

(** ** Data model

    [models.py] declares three tables.  A row is kept under its primary
    key; an object loaded from a table is the pair of its key and its
    row. *)

(** Modelled from the spec: [models.py] (the User model) is not part of
    the sources; the columns are those of the specification's data model.
    The role is the text the views compare against ['Student'] and
    ['Faculty']. *)
Record User := mkUser {
  username : string;
  email : string;
  password : string;
  role : string
}.

(** [user.role = r] *)
Definition set_role (u : User) (r : string) : User :=
  mkUser (username u) (email u) (password u) r.

(** Modelled from the spec: [models.py] (the Course model) is not part of
    the sources.  [instructor] is the key of the owning user; [credits] is
    kept as the submitted text, once the store has taken it (see
    [credits_refused] below). *)
Record Course := mkCourse {
  course_name : string;
  course_code : string;
  credits : string;
  instructor : Z
}.

(** The three tables.  A [Student] row belongs to one user (one-to-one,
    reached as [user.student_profile]) and is kept under that user's key;
    its value is the many-to-many relation [courses], the set of keys of
    the enrolled courses. *)
Record Store := mkStore {
  users : gmap Z User;
  students : gmap Z (gset Z);
  courses : gmap Z Course
}.

Inductive Level := success | error.

(** What a request can observe and change: the store, the user the
    session is logged in as, and the flash messages queued by
    [messages.success] and [messages.error]. *)
Record World := mkWorld {
  db : Store;
  session : option Z;
  flash : list (Level * string)
}.

(** [request.POST]: the submitted form. [request.POST.get(k)] is a lookup
    that yields [None] for an absent field. *)
Record Request := mkRequest {
  POST : gmap string string
}.

Inductive RenderContext :=
| NoContext
| ErrorMessage (error_message : string)
| StudentContext (enrolled_courses available_courses : gmap Z Course)
                 (can_enroll : bool)
| FacultyContext (courses_ : gmap Z Course).

Inductive Response :=
| Redirect (to : string)
| Render (template : string) (context : RenderContext).

(** ** Exceptions

    What the store operations raise.  [DoesNotExist] is
    [Course.DoesNotExist]; the others are the exceptions that only a
    handler for [Exception] catches. *)
Inductive StoreError :=
| BadKey (text : string)          (* the text is not a primary key *)
| BadValue (column text : string) (* the column does not take the text *)
| NullColumn (column : string)    (* a required column was given None *)
| DuplicateProfile (uid : Z)      (* a second Student row for one user *)
| NoProfile (uid : Z).            (* user.student_profile does not exist *)

Inductive Exc :=
| DoesNotExist
| Raised (e : StoreError).

(** ** A state and exception monad for the handlers *)

Definition M (A : Type) : Type := World -> (Exc + A) * World.

Definition ret {A} (a : A) : M A := fun w => (inr a, w).

Definition bind {A B} (m : M A) (k : A -> M B) : M B :=
  fun w => match m w with
           | (inr a, w') => k a w'
           | (inl e, w') => (inl e, w')
           end.

Definition raise {A} (e : Exc) : M A := fun w => (inl e, w).

(** [try: body except e: handler e] *)
Definition try_except {A} (body : M A) (handler : Exc -> M A) : M A :=
  fun w => match body w with
           | (inl e, w') => handler e w'
           | r => r
           end.

Definition get_db : M Store := fun w => (inr (db w), w).

Definition set_db (st : Store) : M unit :=
  fun w => (inr tt, mkWorld st (session w) (flash w)).

Definition when (b : bool) (m : M unit) : M unit := if b then m else ret tt.

Arguments ret : simpl never.
Arguments bind : simpl never.
Arguments raise : simpl never.
Arguments try_except : simpl never.
Arguments when : simpl never.

Notation "x <- m ;; k" := (bind m (fun x => k))
  (at level 100, m at next level, right associativity).
Notation "m ;; k" := (bind m (fun _ => k))
  (at level 100, right associativity).

(** [messages.error(request, text)] and [messages.success(request, text)] *)
Definition messages (lvl : Level) (text : string) : M unit :=
  fun w => (inr tt, mkWorld (db w) (session w) (flash w ++ [(lvl, text)])).

(** [login(request, user)] *)
Definition login (user : Z * User) : M unit :=
  fun w => (inr tt, mkWorld (db w) (Some user.1) (flash w)).

(** [request.user], as the authentication middleware loads it: the row of
    the session's user, [None] for an anonymous request. *)
Definition request_user (w : World) : option (Z * User) :=
  uid ← session w; u ← users (db w) !! uid; Some (uid, u).

(** ** Python values *)

(** Truth value of [request.POST.get(k)]: [None] and [''] are false. *)
Definition truthy (v : option string) : bool :=
  match v with
  | Some s => negb (String.eqb s "")
  | None => false
  end.

Definition lower_ascii (c : ascii) : ascii :=
  let n := N_of_ascii c in
  if ((65 <=? n) && (n <=? 90))%N then ascii_of_N (n + 32) else c.

(** [str.lower] on the bytes of the text: the letters A-Z are lowered,
    every other byte is kept (no character outside ASCII lowers to a
    letter of ["student"]). *)
Fixpoint lower (s : string) : string :=
  match s with
  | EmptyString => EmptyString
  | String c s' => String (lower_ascii c) (lower s')
  end.

(** [str.startswith] *)
Definition startswith (s p : string) : bool := String.prefix p s.

(** [v == s] for a form value [v] *)
Definition is_text (v : option string) (s : string) : bool :=
  bool_decide (v = Some s).

(** The form value as text, once the handler has checked that it is
    there; [f'{v}'] prints [None] as ["None"]. *)
Definition text_of (v : option string) : string := default "" v.
Definition format (v : option string) : string := default "None" v.

(** ** The framework and the store

    What the views take from Django and from the declarations of
    [models.py]: the authentication backend behind [authenticate], the
    password hasher, the conversion of a submitted text to a primary key
    of [Course] ([None] when the text is not a key: the query raises
    before any row is looked at), the conversion of a submitted text to
    the type of the column [credits] ([credits_refused] is the error that
    saving the row raises when the column does not take the text, [None]
    when it does), and the text of a store exception ([str(e)]). *)
Class Backend := {
  authenticate : Store -> string -> string -> option (Z * User);
  make_password : string -> string;
  to_python : string -> option Z;
  credits_refused : string -> option StoreError;
  str : StoreError -> string
}.

(** The key the store gives to a new row: one more than the largest key
    in the table.  (A database sequence does not hand out the key of a
    deleted row again; what is proved below about a new course uses only
    that its key is not in the table.) *)
Definition next_pk {A} (table : gmap Z A) : Z :=
  1 + foldr Z.max 0 (elements (dom table)).

(** [Model.objects.filter(...).exists()] *)
Definition exists_row {A} (P : A -> bool) (table : gmap Z A) : bool :=
  existsb P (map_to_list table).*2.
Arguments exists_row : simpl never.

Section Views.
Context `{Backend}.

(** [str(e)] for any exception *)
Definition str_exc (e : Exc) : string :=
  match e with
  | DoesNotExist => "Course matching query does not exist."
  | Raised e => str e
  end.

(** *** User *)

(** [User.objects.filter(username=v).exists()]; a [None] value is a test
    for a null column, which no row has. *)
Definition User_objects_filter_username_exists (v : option string) : M bool :=
  st <- get_db ;;
  ret (exists_row (fun u => bool_decide (Some (username u) = v)) (users st)).

Definition User_objects_filter_email_exists (v : option string) : M bool :=
  st <- get_db ;;
  ret (exists_row (fun u => bool_decide (Some (email u) = v)) (users st)).

(** Modelled from the spec: [models.py] (the User model and its manager)
    is not part of the sources.  [create_user] stores one new row with the
    given columns and the hashed password.  (The texts are stored as they
    are submitted; a manager that rewrites them before storing, as
    Django's own does with the domain of the email, is not modelled, and
    nothing below is stated about the spelling of a stored email.) *)
Definition User_objects_create_user
    (username email password role : string) : M (Z * User) :=
  st <- get_db ;;
  let uid := next_pk (users st) in
  let u := mkUser username email (make_password password) role in
  set_db (mkStore (<[uid := u]> (users st)) (students st) (courses st)) ;;
  ret (uid, u).

(** [user.save()] *)
Definition User_save (user : Z * User) : M unit :=
  st <- get_db ;;
  set_db (mkStore (<[user.1 := user.2]> (users st)) (students st) (courses st)).

(** *** Student *)

(** [hasattr(user, 'student_profile')] *)
Definition hasattr_student_profile (user : Z * User) : M bool :=
  st <- get_db ;;
  ret (bool_decide (is_Some (students st !! user.1))).

(** [Student.objects.create(user=user)]: a new profile with no course; the
    relation is one-to-one, a second profile for the user is refused. *)
Definition Student_objects_create (user : Z * User) : M unit :=
  st <- get_db ;;
  match students st !! user.1 with
  | Some _ => raise (Raised (DuplicateProfile user.1))
  | None =>
      set_db (mkStore (users st) (<[user.1 := ∅]> (students st)) (courses st))
  end.

(** [user.student_profile.courses]: the keys of the enrolled courses *)
Definition student_profile_courses (user : Z * User) : M (gset Z) :=
  st <- get_db ;;
  match students st !! user.1 with
  | Some enrolled => ret enrolled
  | None => raise (Raised (NoProfile user.1))
  end.

(** [user.student_profile.courses.all()]: the rows of the enrolled
    courses *)
Definition student_profile_courses_all (user : Z * User) : M (gmap Z Course) :=
  enrolled <- student_profile_courses user ;;
  st <- get_db ;;
  ret (filter (fun kc => kc.1 ∈ enrolled) (courses st)).

(** [user.student_profile.courses.count()] *)
Definition student_profile_courses_count (user : Z * User) : M Z :=
  enrolled <- student_profile_courses user ;;
  ret (Z.of_nat (size enrolled)).

(** [user.student_profile.courses.add(course)]; adding a course that is
    already there changes nothing. *)
Definition student_profile_courses_add
    (user : Z * User) (course : Z * Course) : M unit :=
  enrolled <- student_profile_courses user ;;
  st <- get_db ;;
  set_db (mkStore (users st)
            (<[user.1 := {[course.1]} ∪ enrolled]> (students st))
            (courses st)).

(** [user.student_profile.courses.remove(course)]; removing a course that
    is not there changes nothing. *)
Definition student_profile_courses_remove
    (user : Z * User) (course : Z * Course) : M unit :=
  enrolled <- student_profile_courses user ;;
  st <- get_db ;;
  set_db (mkStore (users st)
            (<[user.1 := enrolled ∖ {[course.1]}]> (students st))
            (courses st)).

(** *** Course *)

(** [Course.objects.get(id=course_id)] and
    [Course.objects.get(id=course_id, instructor=user)].  [id=None] is a
    test for a null key, which no row has; a text is first converted to a
    key, and a text that is not a key raises there. *)
Definition Course_objects_get
    (course_id : option string) (instructor_ : option (Z * User))
    : M (Z * Course) :=
  st <- get_db ;;
  match course_id with
  | None => raise DoesNotExist
  | Some text =>
      match to_python text with
      | None => raise (Raised (BadKey text))
      | Some k =>
          match courses st !! k with
          | None => raise DoesNotExist
          | Some c =>
              match instructor_ with
              | None => ret (k, c)
              | Some user =>
                  if bool_decide (instructor c = user.1) then ret (k, c)
                  else raise DoesNotExist
              end
          end
      end
  end.

(** [Course.objects.exclude(id__in=ids)] *)
Definition Course_objects_exclude_id_in (ids : list Z) : M (gmap Z Course) :=
  st <- get_db ;;
  ret (filter (fun kc => kc.1 ∉ ids) (courses st)).

(** [Course.objects.filter(instructor=user)] *)
Definition Course_objects_filter_instructor (user : Z * User)
    : M (gmap Z Course) :=
  st <- get_db ;;
  ret (filter (fun kc => instructor kc.2 = user.1) (courses st)).

(** [Course.objects.create(course_name=, course_code=, credits=,
    instructor=)].  The values are converted to the types of their
    columns before the row is written, so a credits text that the column
    does not take is refused first; then the three columns are
    required. *)
Definition Course_objects_create
    (name code credits_ : option string) (user : Z * User) : M (Z * Course) :=
  st <- get_db ;;
  match credits_ ≫= credits_refused with
  | Some e => raise (Raised e)
  | None =>
      match name, code, credits_ with
      | None, _, _ => raise (Raised (NullColumn "course_name"))
      | _, None, _ => raise (Raised (NullColumn "course_code"))
      | _, _, None => raise (Raised (NullColumn "credits"))
      | Some name, Some code, Some credits_ =>
          let k := next_pk (courses st) in
          let c := mkCourse name code credits_ user.1 in
          set_db (mkStore (users st) (students st) (<[k := c]> (courses st))) ;;
          ret (k, c)
      end
  end.

(** [course.delete()]: the row goes, and with it its rows in the
    many-to-many relation. *)
Definition Course_delete (course : Z * Course) : M unit :=
  st <- get_db ;;
  set_db (mkStore (users st)
            ((fun enrolled => enrolled ∖ {[course.1]}) <$> students st)
            (delete course.1 (courses st))).

(** [course.save()]: the row is written unless the column [credits] does
    not take the value, in which case saving raises and nothing is
    written.  (The value is the submitted text, or the stored one when
    the form carries none; a stored value is one that the store took
    when the row was written.) *)
Definition Course_save (course : Z * Course) : M unit :=
  st <- get_db ;;
  match credits_refused (credits course.2) with
  | Some e => raise (Raised e)
  | None =>
      set_db (mkStore (users st) (students st)
                (<[course.1 := course.2]> (courses st)))
  end.

(** ** The views *)

(** [LoginRequiredMixin] with [login_url = '/login/']: an anonymous
    request is sent to the login page (the [next] parameter that the
    mixin adds to the address is left out), the view runs for a
    logged-in user. *)
Definition login_url : string := "/login/".

Definition LoginRequiredMixin
    (view : Z * User -> Request -> M Response) (request : Request)
    : M Response :=
  fun w => match request_user w with
           | Some user => view user request w
           | None => (inr (Redirect login_url), w)
           end.

(** [LoginView.post] *)
Definition LoginView_post (request : Request) : M Response :=
  let username := POST request !! "username" in
  let password := POST request !! "password" in
  if negb (forallb truthy [username; password]) then
    messages error "Please fill in all fields" ;;
    ret (Render "login.html" (ErrorMessage "Please fill in all fields"))
  else
    st <- get_db ;;
    match authenticate st (text_of username) (text_of password) with
    | None => ret (Render "login.html" (ErrorMessage "Invalid credentials"))
    | Some user =>
        user <-
          (if startswith (text_of username) "faculty"
              && negb (bool_decide (role user.2 = "Faculty"))
           then
             let user := (user.1, set_role user.2 "Faculty") in
             User_save user ;; ret user
           else ret user) ;;
        login user ;;
        if bool_decide (role user.2 = "Faculty") then
          ret (Redirect "faculty-dashboard")
        else ret (Redirect "student-dashboard")
    end.

(** [RegisterView.post] *)
Definition RegisterView_post (request : Request) : M Response :=
  let username := POST request !! "username" in
  let email := POST request !! "email" in
  let password := POST request !! "password" in
  let role := POST request !! "role" in
  if negb (forallb truthy [username; email; password; role]) then
    ret (Render "register.html"
           (ErrorMessage "Please fill in all required fields"))
  else
    taken <- User_objects_filter_username_exists username ;;
    if (taken : bool) then
      ret (Render "register.html" (ErrorMessage "Username already exists"))
    else
      taken <- User_objects_filter_email_exists email ;;
      if (taken : bool) then
        ret (Render "register.html" (ErrorMessage "Email already exists"))
      else
        try_except
          (user <- User_objects_create_user
                     (text_of username) (text_of email) (text_of password)
                     (if bool_decide (lower (text_of role) = "student")
                      then "Student" else "Faculty") ;;
           when (bool_decide (lower (text_of role) = "student"))
                (Student_objects_create user) ;;
           messages success
             "Registration successful! Please login with your credentials." ;;
           ret (Redirect "login"))
          (fun e => ret (Render "register.html" (ErrorMessage (str_exc e)))).

(** [StudentDashboardView.get] *)
Definition StudentDashboardView_get
    (user : Z * User) (request : Request) : M Response :=
  if negb (bool_decide (role user.2 = "Student")) then
    messages error "Access denied. Student account required." ;;
    ret (Redirect "login")
  else
    has <- hasattr_student_profile user ;;
    when (negb has) (Student_objects_create user) ;;
    enrolled_courses <- student_profile_courses_all user ;;
    available_courses <-
      Course_objects_exclude_id_in (map_to_list enrolled_courses).*1 ;;
    ret (Render "student-dashboard.html"
           (StudentContext enrolled_courses available_courses
              (bool_decide (size enrolled_courses < 2)%nat))).

(** [StudentDashboardView.post] *)
Definition StudentDashboardView_post
    (user : Z * User) (request : Request) : M Response :=
  if negb (bool_decide (role user.2 = "Student")) then
    messages error "Access denied. Student account required." ;;
    ret (Redirect "login")
  else
    has <- hasattr_student_profile user ;;
    when (negb has) (Student_objects_create user) ;;
    let action := POST request !! "action" in
    let course_id := POST request !! "course_id" in
    try_except
      (course <- Course_objects_get course_id None ;;
       if is_text action "enroll" then
         enrolled_count <- student_profile_courses_count user ;;
         if (enrolled_count >=? 2) then
           messages error "You cannot enroll in more than 2 courses."
         else
           student_profile_courses_add user course ;;
           messages success
             ("Successfully enrolled in " ++ course_name course.2)
       else if is_text action "drop" then
         student_profile_courses_remove user course ;;
         messages success ("Successfully dropped " ++ course_name course.2)
       else ret tt)
      (fun e => match e with
                | DoesNotExist => messages error "Course not found"
                | _ => messages error (str_exc e)
                end) ;;
    ret (Redirect "student-dashboard").

(** [FacultyDashboardView.get] *)
Definition FacultyDashboardView_get
    (user : Z * User) (request : Request) : M Response :=
  if negb (bool_decide (role user.2 = "Faculty")) then
    messages error "Access denied. Faculty account required." ;;
    ret (Redirect "login")
  else
    courses <- Course_objects_filter_instructor user ;;
    ret (Render "faculty-dashboard.html" (FacultyContext courses)).

(** [FacultyDashboardView.post] *)
Definition FacultyDashboardView_post
    (user : Z * User) (request : Request) : M Response :=
  if negb (bool_decide (role user.2 = "Faculty")) then
    messages error "Access denied. Faculty account required." ;;
    ret (Redirect "login")
  else
    let action := POST request !! "action" in
    let course_id := POST request !! "course_id" in
    (if is_text action "create" then
       let name := POST request !! "name" in
       let code := POST request !! "code" in
       let credits := POST request !! "credits" in
       try_except
         (Course_objects_create name code credits user ;;
          messages success ("Successfully created course " ++ format name))
         (fun e => messages error (str_exc e))
     else if is_text action "delete" && truthy course_id then
       try_except
         (course <- Course_objects_get course_id (Some user) ;;
          Course_delete course ;;
          messages success "Course deleted successfully")
         (fun e => match e with
                   | DoesNotExist => messages error "Course not found"
                   | _ => raise e
                   end)
     else if is_text action "update" && truthy course_id then
       try_except
         (course <- Course_objects_get course_id (Some user) ;;
          let course :=
            (course.1,
             mkCourse (default (course_name course.2) (POST request !! "name"))
                      (default (course_code course.2) (POST request !! "code"))
                      (default (credits course.2) (POST request !! "credits"))
                      (instructor course.2)) in
          Course_save course ;;
          messages success "Course updated successfully")
         (fun e => match e with
                   | DoesNotExist => messages error "Course not found"
                   | _ => messages error (str_exc e)
                   end)
     else ret tt) ;;
    ret (Redirect "faculty-dashboard").

(** The two dashboards as they are dispatched, behind the mixin. *)
Definition student_dashboard_GET := LoginRequiredMixin StudentDashboardView_get.
Definition student_dashboard_POST := LoginRequiredMixin StudentDashboardView_post.
Definition faculty_dashboard_GET := LoginRequiredMixin FacultyDashboardView_get.
Definition faculty_dashboard_POST := LoginRequiredMixin FacultyDashboardView_post.

End Views.

(** ** A backend and a store for the examples

    Keys are written as plain decimal numerals, every other text (the
    empty one too) is refused as a key; the column [credits] takes the
    same numerals and refuses every other text; a user is authenticated
    by the username and the hash of the password. *)

Definition digit_of (c : ascii) : option Z :=
  let n := N_of_ascii c in
  if ((48 <=? n) && (n <=? 57))%N then Some (Z.of_N (n - 48)) else None.

Fixpoint decimal (acc : Z) (s : string) : option Z :=
  match s with
  | EmptyString => Some acc
  | String c s' =>
      match digit_of c with
      | Some d => decimal (10 * acc + d) s'
      | None => None
      end
  end.

Definition numeral (s : string) : option Z :=
  match s with
  | EmptyString => None
  | _ => decimal 0 s
  end.

Definition demo_hash (raw : string) : string := "hash$" ++ raw.

Definition demo_authenticate (st : Store) (name raw : string)
    : option (Z * User) :=
  head (filter (fun ku => username ku.2 = name
                          ∧ password ku.2 = demo_hash raw)
               (map_to_list (users st))).

Definition demo_credits_refused (text : string) : option StoreError :=
  match numeral text with
  | Some _ => None
  | None => Some (BadValue "credits" text)
  end.

Definition demo_str (e : StoreError) : string :=
  match e with
  | BadKey text => "Field 'id' expected a number but got '" ++ text ++ "'."
  | BadValue column text =>
      "Field '" ++ column ++ "' expected a number but got '" ++ text ++ "'."
  | NullColumn column => "NOT NULL constraint failed: " ++ column
  | DuplicateProfile _ => "UNIQUE constraint failed: student.user_id"
  | NoProfile _ => "User has no student_profile."
  end.

#[export] Instance demo : Backend := {|
  authenticate := demo_authenticate;
  make_password := demo_hash;
  to_python := numeral;
  credits_refused := demo_credits_refused;
  str := demo_str
|}.

(** Two faculty users, two students and three courses; student 3 is
    enrolled in courses 1 and 2, student 4 in course 1; user 5 has a
    faculty-looking name and the stored role Student. *)
Definition demo_users : gmap Z User :=
  list_to_map
    [(1, mkUser "faculty_ann" "ann@x.org" (demo_hash "pw1") "Faculty");
     (2, mkUser "faculty_bob" "bob@x.org" (demo_hash "pw2") "Faculty");
     (3, mkUser "carl" "carl@x.org" (demo_hash "pw3") "Student");
     (4, mkUser "dora" "dora@x.org" (demo_hash "pw4") "Student");
     (5, mkUser "faculty_jane" "jane@x.org" (demo_hash "pw5") "Student")].

Definition demo_students : gmap Z (gset Z) :=
  list_to_map [(3, {[1; 2]}); (4, {[1]}); (5, ∅)].

Definition demo_courses : gmap Z Course :=
  list_to_map
    [(1, mkCourse "Logic" "CS101" "4" 1);
     (2, mkCourse "Algebra" "MA201" "3" 1);
     (3, mkCourse "Optics" "PH301" "3" 2)].

Definition carl : Z * User :=
  (3, mkUser "carl" "carl@x.org" (demo_hash "pw3") "Student").
Definition optics : Z * Course := (3, mkCourse "Optics" "PH301" "3" 2).

Definition ann : Z * User :=
  (1, mkUser "faculty_ann" "ann@x.org" (demo_hash "pw1") "Faculty").
Definition dora : Z * User :=
  (4, mkUser "dora" "dora@x.org" (demo_hash "pw4") "Student").
Definition jane : Z * User :=
  (5, mkUser "faculty_jane" "jane@x.org" (demo_hash "pw5") "Student").
Definition logic : Z * Course := (1, mkCourse "Logic" "CS101" "4" 1).

Definition demo_store : Store := mkStore demo_users demo_students demo_courses.

(** The demo store with the user [uid] logged in. *)
Definition demo_world (uid : option Z) : World := mkWorld demo_store uid [].

Definition form (fields : list (string * string)) : Request :=
  mkRequest (list_to_map fields).

(** ** Vocabulary of the specification *)

(** The error kinds of the specification, as the texts the views report
    them with. *)
Definition EnrollmentLimitExceeded : string :=
  "You cannot enroll in more than 2 courses.".
Definition CourseNotFound : string := "Course not found".
Definition MissingFields : string := "Please fill in all required fields".
Definition DuplicateUsername : string := "Username already exists".
Definition DuplicateEmail : string := "Email already exists".
Definition AccessDenied : string := "Access denied. Student account required.".

(** The world after one more flash message, nothing else changed. *)
Definition flashed (w : World) (lvl : Level) (text : string) : World :=
  mkWorld (db w) (session w) (flash w ++ [(lvl, text)]).

(** The enrolled set of a user; a user without a profile has none. *)
Definition enrolled_of (st : Store) (uid : Z) : gset Z :=
  default ∅ (students st !! uid).

(** The store once the profile of [uid] is there: the dashboards create
    an empty one for a student who has none. *)
Definition ensure_profile (st : Store) (uid : Z) : Store :=
  match students st !! uid with
  | Some _ => st
  | None => mkStore (users st) (<[uid := ∅]> (students st)) (courses st)
  end.

(** Some user has this username, this email. *)
Definition username_taken (st : Store) (name : string) : Prop :=
  ∃ k u, users st !! k = Some u ∧ username u = name.

Definition email_taken (st : Store) (address : string) : Prop :=
  ∃ k u, users st !! k = Some u ∧ email u = address.

(** Equality of two texts up to the case of their letters, letter by
    letter. *)
Fixpoint caseless_eq (a b : string) : bool :=
  match a, b with
  | EmptyString, EmptyString => true
  | String x a', String y b' =>
      bool_decide (lower_ascii x = lower_ascii y) && caseless_eq a' b'
  | _, _ => false
  end.

(** What a registration form must carry, and a form in which one of
    these fields is not filled in (not sent, or sent empty). *)
Definition required_fields : list string :=
  ["username"; "email"; "password"; "role"].

Definition field_missing (request : Request) : Prop :=
  ∃ f, f ∈ required_fields ∧ truthy (POST request !! f) = false.

(** The submitted username, the submitted email, is that of a stored
    user. *)
Definition username_in_use (st : Store) (request : Request) : Prop :=
  ∃ name, POST request !! "username" = Some name ∧ username_taken st name.

Definition email_in_use (st : Store) (request : Request) : Prop :=
  ∃ address, POST request !! "email" = Some address ∧ email_taken st address.

(** No student is enrolled in more than two courses. *)
Definition enrollment_cap (st : Store) : Prop :=
  ∀ uid enrolled, students st !! uid = Some enrolled → (size enrolled ≤ 2)%nat.

(** Every Student row belongs to a stored user (the foreign key of the
    one-to-one relation). *)
Definition profiles_have_users (st : Store) : Prop :=
  dom (students st) ⊆ dom (users st).

(** The foreign key, together with the fact that [user] is stored: what
    holds inside a dashboard, where [user] is the requester. *)
Definition fk_with (user : Z * User) (st : Store) : Prop :=
  profiles_have_users st ∧ user.1 ∈ dom (users st).

Inductive View :=
| login_post | register_post
| student_get | student_post
| faculty_get | faculty_post.

Section Serving.
Context `{Backend}.

(** [course_id] names the stored course [course]. *)
Definition resolves (st : Store) (course_id : option string)
    (course : Z * Course) : Prop :=
  ∃ text, course_id = Some text ∧ to_python text = Some course.1
          ∧ courses st !! course.1 = Some course.2.

(** [course_id] names a stored course whose instructor is [user]. *)
Definition owned (st : Store) (user : Z * User) (course_id : option string)
    (course : Z * Course) : Prop :=
  resolves st course_id course ∧ instructor course.2 = user.1.

(** The course as [update] saves it: the submitted fields, and the
    stored value of every field that the form does not carry. *)
Definition updated (request : Request) (c : Course) : Course :=
  mkCourse (default (course_name c) (POST request !! "name"))
           (default (course_code c) (POST request !! "code"))
           (default (credits c) (POST request !! "credits"))
           (instructor c).

(** The URL configuration: one handler per view and method. *)
Definition dispatch (v : View) : Request → M Response :=
  match v with
  | login_post => LoginView_post
  | register_post => RegisterView_post
  | student_get => student_dashboard_GET
  | student_post => student_dashboard_POST
  | faculty_get => faculty_dashboard_GET
  | faculty_post => faculty_dashboard_POST
  end.

(** One request of a client whose session is [hit.1.1], and what it
    leaves in the store; then a sequence of requests of any clients. *)
Definition serve (st : Store) (hit : option Z * View * Request) : Store :=
  db (dispatch hit.1.2 hit.2 (mkWorld st hit.1.1 [])).2.

Definition serve_all (st : Store) (hits : list (option Z * View * Request))
    : Store :=
  foldl serve st hits.

End Serving.

(** A computation that keeps a property of the store, and one that does
    not write to the store at all. *)
Definition preserves {A} (I : Store → Prop) (m : M A) : Prop :=
  ∀ w, I (db w) → I (db (m w).2).

Definition readonly {A} (m : M A) : Prop := ∀ w, db (m w).2 = db w.

(** ** A history for the examples *)

Definition empty_store : Store := mkStore ∅ ∅ ∅.

(** A short history from the empty store: a faculty user and a student
    register, the faculty user creates a course, the student enrols in
    it. *)
Definition demo_hits : list (option Z * View * Request) :=
  [ (None, register_post,
     form [("username", "prof"); ("email", "prof@x.org");
           ("password", "pw1"); ("role", "Faculty")]);
    (None, register_post,
     form [("username", "stud"); ("email", "stud@x.org");
           ("password", "pw2"); ("role", "student")]);
    (Some 1, faculty_post,
     form [("action", "create"); ("name", "Logic"); ("code", "CS101");
           ("credits", "4")]);
    (Some 2, student_post,
     form [("action", "enroll"); ("course_id", "1")]) ].

(** One login of "faculty_jane", whose stored role is Student. *)
Definition jane_logs_in : list (option Z * View * Request) :=
  [ (None, login_post,
     form [("username", "faculty_jane"); ("password", "pw5")]) ].

(** ** The views without a form: login and registration pages, logout,
    index *)

(** [request.GET]: the query of a GET request. *)
Record Query := mkQuery {
  GET : gmap string string
}.

(** A response with the cookies and the headers that the view sets on it
    (the headers that [redirect] itself puts on a response are left
    out).  A cookie is kept with its value and its [max_age]. *)
Record HttpResponse := mkHttpResponse {
  response : Response;
  cookies : gmap string (string * Z);
  headers : gmap string string
}.

(** [response.set_cookie(name, value, max_age=age)] *)
Definition set_cookie (r : HttpResponse) (name value : string) (age : Z)
    : HttpResponse :=
  mkHttpResponse (response r) (<[name := (value, age)]> (cookies r))
    (headers r).

(** [response[name] = value] *)
Definition set_header (r : HttpResponse) (name value : string)
    : HttpResponse :=
  mkHttpResponse (response r) (cookies r) (<[name := value]> (headers r)).

(** [logout(request)]: the session no longer names a user. *)
Definition logout : M unit :=
  fun w => (inr tt, mkWorld (db w) None (flash w)).

(** [request.user], read inside a handler. *)
Definition current_user : M (option (Z * User)) :=
  fun w => (inr (request_user w), w).

(** [LoginView.get] *)
Definition LoginView_get (query : Query) : M Response :=
  if is_text (GET query !! "action") "back" then ret (Redirect "index")
  else
    user <- current_user ;;
    match user with
    | Some user =>
        if bool_decide (role user.2 = "Faculty") then
          ret (Redirect "faculty-dashboard")
        else ret (Redirect "student-dashboard")
    | None => ret (Render "login.html" NoContext)
    end.

(** [RegisterView.get] *)
Definition RegisterView_get (query : Query) : M Response :=
  if is_text (GET query !! "action") "back" then ret (Redirect "index")
  else ret (Render "register.html" NoContext).

(** [LogoutView.get] *)
Definition LogoutView_get : M HttpResponse :=
  logout ;;
  let response := mkHttpResponse (Redirect "index") ∅ ∅ in
  let response := set_cookie response "clear_tokens" "true" 10 in
  let response :=
    set_header response "Cache-Control" "no-cache, no-store, must-revalidate" in
  let response := set_header response "Pragma" "no-cache" in
  let response := set_header response "Expires" "0" in
  ret response.

(** [IndexView.get] *)
Definition IndexView_get : M Response := ret (Render "index.html" NoContext).

(** ** More vocabulary: the ways a request changes the store *)

Definition AccessDeniedFaculty : string :=
  "Access denied. Faculty account required.".

(** Every enrolled course is a stored course. *)
Definition enrolled_courses_exist (st : Store) : Prop :=
  ∀ uid enrolled, students st !! uid = Some enrolled →
                  enrolled ⊆ dom (courses st).

(** The instructor of every course is a stored user whose role is
    Faculty. *)
Definition instructors_are_faculty (st : Store) : Prop :=
  ∀ k c, courses st !! k = Some c →
         ∃ u, users st !! instructor c = Some u ∧ role u = "Faculty".

(** Every stored role is one of the two roles. *)
Definition roles_known (st : Store) : Prop :=
  ∀ k u, users st !! k = Some u → role u = "Student" ∨ role u = "Faculty".

(** No two stored users have the same username. *)
Definition usernames_unique (st : Store) : Prop :=
  ∀ k1 k2 u1 u2, users st !! k1 = Some u1 → users st !! k2 = Some u2 →
                 username u1 = username u2 → k1 = k2.

Section Changes.
Context `{Backend}.

(** The backend authenticates stored users only: the user that
    [authenticate] returns is a row of the users table. *)
Definition authenticate_stored : Prop :=
  ∀ st name raw user,
    authenticate st name raw = Some user → users st !! user.1 = Some user.2.

(** One write to the store, with what the handlers have checked before
    they make it. *)
Inductive change (st : Store) : Store → Prop :=
| profile_created uid u :
    users st !! uid = Some u → students st !! uid = None →
    change st (mkStore (users st) (<[uid := ∅]> (students st)) (courses st))
| course_enrolled uid enrolled k c :
    students st !! uid = Some enrolled → (size enrolled < 2)%nat →
    courses st !! k = Some c →
    change st (mkStore (users st)
                 (<[uid := {[k]} ∪ enrolled]> (students st)) (courses st))
| course_dropped uid enrolled k :
    students st !! uid = Some enrolled →
    change st (mkStore (users st)
                 (<[uid := enrolled ∖ {[k]}]> (students st)) (courses st))
| user_created u :
    ¬ username_taken st (username u) → ¬ email_taken st (email u) →
    role u = "Student" ∨ role u = "Faculty" →
    change st (mkStore (<[next_pk (users st) := u]> (users st))
                 (students st) (courses st))
| role_repaired name raw user :
    authenticate st name raw = Some user →
    change st (mkStore (<[user.1 := set_role user.2 "Faculty"]> (users st))
                 (students st) (courses st))
| course_created c u :
    users st !! instructor c = Some u → role u = "Faculty" →
    change st (mkStore (users st) (students st)
                 (<[next_pk (courses st) := c]> (courses st)))
| course_updated k c c' :
    courses st !! k = Some c → instructor c' = instructor c →
    change st (mkStore (users st) (students st) (<[k := c']> (courses st)))
| course_deleted k c :
    courses st !! k = Some c →
    change st (mkStore (users st)
                 ((λ enrolled, enrolled ∖ {[k]}) <$> students st)
                 (delete k (courses st))).

End Changes.

(** * Properties *)

(** Unfolds the monad and the store operations of a handler. *)
Ltac run :=
  cbv beta iota zeta delta
    [bind ret raise try_except get_db set_db when messages login
     hasattr_student_profile Student_objects_create
     student_profile_courses_count student_profile_courses_add
     student_profile_courses_remove student_profile_courses_all
     student_profile_courses Course_objects_get Course_objects_exclude_id_in
     Course_objects_filter_instructor Course_objects_create Course_delete
     Course_save User_objects_filter_username_exists
     User_objects_filter_email_exists User_objects_create_user User_save];
  simpl.

Lemma truthy_Some (text : string) : text ≠ "" → truthy (Some text) = true.
Proof. by destruct text. Qed.

Lemma size_difference_le (s : gset Z) (k : Z) :
  (size (s ∖ {[k]}) ≤ size s)%nat.
Proof. apply subseteq_size. by intros x [? ?]%elem_of_difference. Qed.

Lemma foldr_max_ge (l : list Z) (k : Z) : k ∈ l → (k ≤ foldr Z.max 0 l)%Z.
Proof.
  induction l as [|x l IH]; [by intros ?%elem_of_nil|].
  intros [->|Hin]%elem_of_cons; simpl; [lia|].
  specialize (IH Hin). lia.
Qed.

(** The key of a new row is not in the table. *)
Lemma next_pk_fresh {A} (table : gmap Z A) : table !! next_pk table = None.
Proof.
  apply not_elem_of_dom. intros Hin.
  apply elem_of_elements, foldr_max_ge in Hin. unfold next_pk in Hin. lia.
Qed.

Lemma exists_row_true {A} (P : A → bool) (table : gmap Z A) :
  exists_row P table = true ↔ ∃ k x, table !! k = Some x ∧ P x = true.
Proof.
  unfold exists_row. rewrite existsb_exists. split.
  - intros (x & Hin & HP). apply list_elem_of_In, list_elem_of_fmap in Hin.
    destruct Hin as ([k y] & -> & Hin). apply elem_of_map_to_list in Hin.
    by exists k, y.
  - intros (k & x & Hk & HP). exists x. split; [|done].
    apply list_elem_of_In, list_elem_of_fmap. exists (k, x).
    split; [done|]. by apply elem_of_map_to_list.
Qed.

Lemma lower_caseless a b : lower a = lower b ↔ caseless_eq a b = true.
Proof.
  revert b. induction a as [|x a IH]; intros [|y b]; simpl; try done.
  rewrite andb_true_iff, bool_decide_eq_true, <- IH.
  split; [by intros [= -> ->]|by intros [-> ->]].
Qed.

Section Properties.
Context `{Backend}.

(** ** Keeping a property of the store through a handler *)

Lemma readonly_preserves {A} I (m : M A) : readonly m → preserves I m.
Proof. intros Hm w Hw. by rewrite Hm. Qed.

Lemma preserves_ret {A} I (a : A) : preserves I (ret a).
Proof. by intros w Hw. Qed.

Lemma preserves_raise {A} I e : preserves I (raise (A:=A) e).
Proof. by intros w Hw. Qed.

Lemma preserves_bind {A B} I (m : M A) (k : A → M B) :
  preserves I m → (∀ a, preserves I (k a)) → preserves I (bind m k).
Proof.
  intros Hm Hk w Hw. unfold bind. specialize (Hm w Hw).
  destruct (m w) as [[e|a] w']; [done | by apply Hk].
Qed.

Lemma preserves_try_except {A} I (body : M A) handler :
  preserves I body → (∀ e, preserves I (handler e)) →
  preserves I (try_except body handler).
Proof.
  intros Hm Hh w Hw. unfold try_except. specialize (Hm w Hw).
  destruct (body w) as [[e|a] w']; [by apply Hh | done].
Qed.

Lemma preserves_when I b m : preserves I m → preserves I (when b m).
Proof. destruct b; [done | intros _; apply preserves_ret]. Qed.

Lemma preserves_messages I lvl text : preserves I (messages lvl text).
Proof. by intros w Hw. Qed.

Lemma preserves_login I user : preserves I (login user).
Proof. by intros w Hw. Qed.

Lemma preserves_get_db I : preserves I get_db.
Proof. by intros w Hw. Qed.

Lemma preserves_LoginRequiredMixin I view request :
  (∀ user, preserves I (view user request)) →
  preserves I (LoginRequiredMixin view request).
Proof.
  intros Hv w Hw. unfold LoginRequiredMixin.
  destruct (request_user w); [by apply Hv | done].
Qed.

Lemma readonly_hasattr_student_profile user :
  readonly (hasattr_student_profile user).
Proof. by intros w. Qed.

Lemma readonly_student_profile_courses user :
  readonly (student_profile_courses user).
Proof. intros w. run. by destruct (students (db w) !! user.1). Qed.

Lemma readonly_student_profile_courses_all user :
  readonly (student_profile_courses_all user).
Proof. intros w. run. by destruct (students (db w) !! user.1). Qed.

Lemma readonly_student_profile_courses_count user :
  readonly (student_profile_courses_count user).
Proof. intros w. run. by destruct (students (db w) !! user.1). Qed.

Lemma readonly_Course_objects_get course_id instructor_ :
  readonly (Course_objects_get course_id instructor_).
Proof. intros w. run. repeat case_match; done. Qed.

Lemma readonly_Course_objects_exclude_id_in ids :
  readonly (Course_objects_exclude_id_in ids).
Proof. by intros w. Qed.

Lemma readonly_Course_objects_filter_instructor user :
  readonly (Course_objects_filter_instructor user).
Proof. by intros w. Qed.

Lemma readonly_User_objects_filter_username_exists v :
  readonly (User_objects_filter_username_exists v).
Proof. by intros w. Qed.

Lemma readonly_User_objects_filter_email_exists v :
  readonly (User_objects_filter_email_exists v).
Proof. by intros w. Qed.

(** Splits a handler along its binds, handlers and branches; [prim]
    closes the store operations. *)
Ltac pres prim :=
  repeat first
    [ prim
    | apply preserves_ret | apply preserves_raise | apply preserves_messages
    | apply preserves_login | apply preserves_get_db
    | apply readonly_preserves;
      first [ apply readonly_hasattr_student_profile
            | apply readonly_student_profile_courses_all
            | apply readonly_student_profile_courses_count
            | apply readonly_student_profile_courses
            | apply readonly_Course_objects_get
            | apply readonly_Course_objects_exclude_id_in
            | apply readonly_Course_objects_filter_instructor
            | apply readonly_User_objects_filter_username_exists
            | apply readonly_User_objects_filter_email_exists ]
    | apply preserves_when
    | apply preserves_LoginRequiredMixin; intros ?
    | apply preserves_try_except; [|intros ?]
    | apply preserves_bind; [|intros ?]
    | match goal with
      | |- preserves _ (if ?b then _ else _) => destruct b
      | |- preserves _ (match ?x with _ => _ end) => destruct x
      end ].

(** ** The foreign key of the profiles is an invariant of the store *)

Lemma fk_User_save user : preserves profiles_have_users (User_save user).
Proof.
  intros w Hw k Hk. simpl. rewrite dom_insert_L.
  apply elem_of_union_r. by apply Hw.
Qed.

(** Registration stores the user before the profile, so the profile has
    its user. *)
Lemma fk_register name address raw role_ (student : bool) :
  preserves profiles_have_users
    (user <- User_objects_create_user name address raw role_ ;;
     when student (Student_objects_create user) ;;
     messages success
       "Registration successful! Please login with your credentials." ;;
     ret (Redirect "login")).
Proof.
  intros w Hw. run. destruct student; simpl.
  - destruct (students (db w) !! next_pk (users (db w))); simpl.
    + intros k Hk. simpl. rewrite dom_insert_L.
      apply elem_of_union_r. by apply Hw.
    + intros k. simpl. rewrite !dom_insert_L, !elem_of_union.
      intros [Hk|Hk]; [by left|right; by apply Hw].
  - intros k Hk. simpl. rewrite dom_insert_L.
    apply elem_of_union_r. by apply Hw.
Qed.

Lemma fk_LoginRequiredMixin view request :
  (∀ user, preserves (fk_with user) (view user request)) →
  preserves profiles_have_users (LoginRequiredMixin view request).
Proof.
  intros Hv w Hw. unfold LoginRequiredMixin.
  destruct (request_user w) as [user|] eqn:Hu; [|done].
  apply (Hv user w). split; [done|].
  unfold request_user in Hu.
  destruct (session w) as [uid|]; [|done]. simpl in Hu.
  destruct (users (db w) !! uid) as [u|] eqn:Huid; [|done].
  injection Hu as <-. apply elem_of_dom. by eexists.
Qed.

Lemma fk_Student_objects_create user :
  preserves (fk_with user) (Student_objects_create user).
Proof.
  intros w [Hw Hu]. run. destruct (students (db w) !! user.1); [done|].
  split; [|done]. intros k. simpl. rewrite dom_insert_L, elem_of_union.
  intros [->%elem_of_singleton|Hk]; [done|by apply Hw].
Qed.

Lemma fk_student_profile_courses_add user course :
  preserves (fk_with user) (student_profile_courses_add user course).
Proof.
  intros w [Hw Hu]. run. destruct (students (db w) !! user.1); [|done].
  split; [|done]. intros k. simpl. rewrite dom_insert_L, elem_of_union.
  intros [->%elem_of_singleton|Hk]; [done|by apply Hw].
Qed.

Lemma fk_student_profile_courses_remove user course :
  preserves (fk_with user) (student_profile_courses_remove user course).
Proof.
  intros w [Hw Hu]. run. destruct (students (db w) !! user.1); [|done].
  split; [|done]. intros k. simpl. rewrite dom_insert_L, elem_of_union.
  intros [->%elem_of_singleton|Hk]; [done|by apply Hw].
Qed.

Lemma fk_Course_objects_create user' name code credits user :
  preserves (fk_with user') (Course_objects_create name code credits user).
Proof.
  intros w Hw. run. destruct (credits ≫= credits_refused); [done|].
  by destruct name, code, credits.
Qed.

Lemma fk_Course_delete user course :
  preserves (fk_with user) (Course_delete course).
Proof.
  intros w [Hw Hu]. split; [|done]. intros k. simpl. rewrite dom_fmap_L.
  apply Hw.
Qed.

Lemma fk_Course_save user course :
  preserves (fk_with user) (Course_save course).
Proof.
  intros w Hw. run. by destruct (credits_refused (credits course.2)).
Qed.

Ltac fk_prim :=
  first [ apply fk_User_save | apply fk_register
        | apply fk_LoginRequiredMixin; intros ?
        | apply fk_Student_objects_create
        | apply fk_student_profile_courses_add
        | apply fk_student_profile_courses_remove
        | apply fk_Course_objects_create | apply fk_Course_delete
        | apply fk_Course_save ].

Lemma fk_dispatch v request :
  preserves profiles_have_users (dispatch v request).
Proof.
  destruct v; simpl;
    unfold LoginView_post, RegisterView_post, student_dashboard_GET,
      student_dashboard_POST, faculty_dashboard_GET, faculty_dashboard_POST,
      StudentDashboardView_get, StudentDashboardView_post,
      FacultyDashboardView_get, FacultyDashboardView_post;
    pres fk_prim.
Qed.

(** Every store that the views make of the empty store satisfies the
    foreign key of the profiles. *)
Lemma fk_serve_all hits st :
  profiles_have_users st → profiles_have_users (serve_all st hits).
Proof.
  revert st. induction hits as [|hit hits IH]; intros st Hst; [done|].
  simpl. apply IH. unfold serve.
  by apply (fk_dispatch hit.1.2 hit.2 (mkWorld st hit.1.1 [])).
Qed.

Lemma fk_empty : profiles_have_users (mkStore ∅ ∅ ∅).
Proof. intros k. simpl. by rewrite dom_empty_L. Qed.

(** ** The enrolment cap is an invariant of the store *)

Lemma cap_User_objects_create_user username email password role :
  preserves enrollment_cap
    (User_objects_create_user username email password role).
Proof. by intros w Hw. Qed.

Lemma cap_User_save user : preserves enrollment_cap (User_save user).
Proof. by intros w Hw. Qed.

Lemma cap_Student_objects_create user :
  preserves enrollment_cap (Student_objects_create user).
Proof.
  intros w Hw. run. destruct (students (db w) !! user.1) eqn:E; [done|].
  intros uid enrolled. simpl. rewrite lookup_insert.
  case_decide; [|by apply Hw].
  intros [= <-]. rewrite size_empty. lia.
Qed.

(** The guarded [add] of [StudentDashboardView.post]: the course is added
    only below the cap, so the set has at most two courses afterwards. *)
Lemma cap_enroll user course :
  preserves enrollment_cap
    (enrolled_count <- student_profile_courses_count user ;;
     if enrolled_count >=? 2 then
       messages error "You cannot enroll in more than 2 courses."
     else
       student_profile_courses_add user course ;;
       messages success ("Successfully enrolled in " ++ course_name course.2)).
Proof.
  intros w Hw. run. destruct (students (db w) !! user.1) as [s|] eqn:E; [|done].
  destruct (Z.geb_spec (Z.of_nat (size s)) 2) as [Hge|Hlt]; [done|].
  simpl. rewrite E. simpl.
  intros uid enrolled. simpl. rewrite lookup_insert.
  case_decide; [|by apply Hw].
  intros [= <-]. rewrite size_union_alt, size_singleton.
  pose proof (size_difference_le s course.1). lia.
Qed.

Lemma cap_student_profile_courses_remove user course :
  preserves enrollment_cap (student_profile_courses_remove user course).
Proof.
  intros w Hw. run. destruct (students (db w) !! user.1) as [s|] eqn:E; [|done].
  intros uid enrolled. simpl. rewrite lookup_insert.
  case_decide; [|by apply Hw].
  intros [= <-]. specialize (Hw _ _ E).
  pose proof (size_difference_le s course.1). lia.
Qed.

Lemma cap_Course_objects_create name code credits user :
  preserves enrollment_cap (Course_objects_create name code credits user).
Proof.
  intros w Hw. run. destruct (credits ≫= credits_refused); [done|].
  by destruct name, code, credits.
Qed.

Lemma cap_Course_delete course :
  preserves enrollment_cap (Course_delete course).
Proof.
  intros w Hw uid enrolled. simpl. rewrite lookup_fmap.
  destruct (students (db w) !! uid) as [s|] eqn:E; [|done].
  intros [= <-]. specialize (Hw _ _ E).
  pose proof (size_difference_le s course.1). lia.
Qed.

Lemma cap_Course_save course : preserves enrollment_cap (Course_save course).
Proof.
  intros w Hw. run. by destruct (credits_refused (credits course.2)).
Qed.

Ltac cap_prim :=
  first [ apply cap_User_objects_create_user | apply cap_User_save
        | apply cap_Student_objects_create | apply cap_enroll
        | apply cap_student_profile_courses_remove
        | apply cap_Course_objects_create | apply cap_Course_delete
        | apply cap_Course_save ].

Lemma cap_dispatch v request : preserves enrollment_cap (dispatch v request).
Proof.
  destruct v; simpl;
    unfold LoginView_post, RegisterView_post, student_dashboard_GET,
      student_dashboard_POST, faculty_dashboard_GET, faculty_dashboard_POST,
      StudentDashboardView_get, StudentDashboardView_post,
      FacultyDashboardView_get, FacultyDashboardView_post;
    pres cap_prim.
Qed.

Lemma cap_serve_all hits st :
  enrollment_cap st → enrollment_cap (serve_all st hits).
Proof.
  revert st. induction hits as [|hit hits IH]; intros st Hst; [done|].
  simpl. apply IH. unfold serve.
  by apply (cap_dispatch hit.1.2 hit.2 (mkWorld st hit.1.1 [])).
Qed.

(** ** Login *)

(** C4. When the submitted username starts with "faculty" and
    authentication succeeds with a user whose stored role is not Faculty,
    login first saves the user with the role Faculty and then logs the
    user in, in this order: the final world is the one [login] makes of
    the world that [user.save()] left, in which the stored role of the
    user is already Faculty; in the final world the session is the
    user's, the stored role is Faculty, and the response is the redirect
    to faculty-dashboard. *)
Theorem login_repairs_faculty_role w request name raw user :
  POST request !! "username" = Some name →
  POST request !! "password" = Some raw →
  raw ≠ "" →
  authenticate (db w) name raw = Some user →
  startswith name "faculty" = true →
  role user.2 ≠ "Faculty" →
  let user' := (user.1, set_role user.2 "Faculty") in
  let saved := (User_save user' w).2 in
  LoginView_post request w
  = (inr (Redirect "faculty-dashboard"), (login user' saved).2)
  ∧ users (db saved) !! user.1 = Some (set_role user.2 "Faculty")
  ∧ session saved = session w
  ∧ users (db (LoginView_post request w).2) !! user.1
    = Some (set_role user.2 "Faculty")
  ∧ role (set_role user.2 "Faculty") = "Faculty"
  ∧ session (LoginView_post request w).2 = Some user.1.
Proof.
  intros Hname Hraw Hr Hauth Hpre Hrole user' saved.
  assert (name ≠ "") as Hn by (by intros ->).
  assert (LoginView_post request w
          = (inr (Redirect "faculty-dashboard"), (login user' saved).2)) as Heq.
  { unfold LoginView_post. rewrite Hname, Hraw. cbv zeta. cbn [forallb].
    rewrite !truthy_Some by done. simpl. run.
    rewrite Hauth, Hpre. rewrite bool_decide_eq_false_2 by done. done. }
  rewrite Heq. repeat split; try done; simpl; apply lookup_insert_eq.
Qed.

(** ** Registration *)

Lemma fields_filled request :
  forallb truthy
    [POST request !! "username"; POST request !! "email";
     POST request !! "password"; POST request !! "role"] = true
  ↔ ¬ field_missing request.
Proof.
  unfold field_missing, required_fields. simpl.
  rewrite !andb_true_iff. split.
  - intros (Hu & He & Hp & Hr & _) (f & Hf & Hno).
    rewrite !elem_of_cons in Hf.
    destruct Hf as [->|[->|[->|[->|Hf]]]];
      [congruence..|by apply elem_of_nil in Hf].
  - intros Hno.
    assert (∀ f, f ∈ ["username"; "email"; "password"; "role"] →
                 truthy (POST request !! f) = true) as Hall.
    { intros f Hf. destruct (truthy (POST request !! f)) eqn:E; [done|].
      destruct Hno. by exists f. }
    repeat split; apply Hall; repeat constructor.
Qed.

Lemma fields_unfilled request :
  forallb truthy
    [POST request !! "username"; POST request !! "email";
     POST request !! "password"; POST request !! "role"] = false
  → field_missing request.
Proof.
  simpl. rewrite !andb_false_iff.
  intros [Hf|[Hf|[Hf|[Hf|Hf]]]]; [| | | |done].
  - exists "username". split; [repeat constructor|done].
  - exists "email". split; [repeat constructor|done].
  - exists "password". split; [repeat constructor|done].
  - exists "role". split; [repeat constructor|done].
Qed.

Lemma username_exists_in_use st request :
  exists_row (λ u, bool_decide (Some (username u) = POST request !! "username"))
    (users st) = true
  ↔ username_in_use st request.
Proof.
  rewrite exists_row_true. unfold username_in_use, username_taken. split.
  - intros (k & u & Hk & Hu%bool_decide_eq_true).
    exists (username u). split; [done|]. by exists k, u.
  - intros (name & Hname & k & u & Hk & <-). exists k, u.
    split; [done|]. by apply bool_decide_eq_true.
Qed.

Lemma email_exists_in_use st request :
  exists_row (λ u, bool_decide (Some (email u) = POST request !! "email"))
    (users st) = true
  ↔ email_in_use st request.
Proof.
  rewrite exists_row_true. unfold email_in_use, email_taken. split.
  - intros (k & u & Hk & Hu%bool_decide_eq_true).
    exists (email u). split; [done|]. by exists k, u.
  - intros (address & Haddr & k & u & Hk & <-). exists k, u.
    split; [done|]. by apply bool_decide_eq_true.
Qed.

(** C5. A registration in which a required field is not filled in, or
    whose username or email is that of a stored user, renders the
    registration page again with the error MissingFields,
    DuplicateUsername or DuplicateEmail (the first of the three checks, in
    this order, that fails), and leaves the world as it was: no user and
    no profile is created. *)
Theorem register_rejects w request :
  field_missing request ∨ username_in_use (db w) request
  ∨ email_in_use (db w) request →
  ∃ kind,
    RegisterView_post request w
    = (inr (Render "register.html" (ErrorMessage kind)), w)
    ∧ (field_missing request → kind = MissingFields)
    ∧ (¬ field_missing request → username_in_use (db w) request →
       kind = DuplicateUsername)
    ∧ (¬ field_missing request → ¬ username_in_use (db w) request →
       kind = DuplicateEmail).
Proof.
  intros Hbad. unfold RegisterView_post.
  destruct (forallb truthy _) eqn:Hfill; simpl.
  - apply fields_filled in Hfill. run.
    destruct (exists_row _ (users (db w))) eqn:Hname.
    + apply username_exists_in_use in Hname.
      exists DuplicateUsername. repeat split; tauto.
    + assert (¬ username_in_use (db w) request) as Hfree.
      { intros Hin%username_exists_in_use. congruence. }
      clear Hname.
      destruct (exists_row _ (users (db w))) eqn:Hmail.
      * exists DuplicateEmail. repeat split; tauto.
      * assert (¬ email_in_use (db w) request).
        { intros Hin%email_exists_in_use. congruence. }
        tauto.
  - assert (field_missing request) as Hmiss.
    { by apply fields_unfilled. }
    exists MissingFields. repeat split; tauto.
Qed.

(** C3. A registration with the four fields filled in and a username and
    an email that no stored user has redirects to login and stores
    exactly one new user, under a key that was free, with the submitted
    username and email, the hashed password, and the role Student when
    the submitted role equals "student" up to the case of its letters and
    Faculty otherwise; when the role is Student exactly one profile, with
    no course, is stored for the new user, otherwise none; the courses
    are untouched and the session is the one of before, so the new user
    is not logged in.  The store is assumed to satisfy the foreign key of
    the profiles. *)
Theorem register_creates w request name address raw role_ :
  POST request !! "username" = Some name →
  POST request !! "email" = Some address →
  POST request !! "password" = Some raw →
  POST request !! "role" = Some role_ →
  name ≠ "" → address ≠ "" → raw ≠ "" → role_ ≠ "" →
  ¬ username_taken (db w) name →
  ¬ email_taken (db w) address →
  profiles_have_users (db w) →
  let uid := next_pk (users (db w)) in
  let student := caseless_eq role_ "student" in
  let u := mkUser name address (make_password raw)
             (if student then "Student" else "Faculty") in
  let w' := (RegisterView_post request w).2 in
  (RegisterView_post request w).1 = inr (Redirect "login")
  ∧ users (db w) !! uid = None
  ∧ users (db w') = <[uid := u]> (users (db w))
  ∧ size (users (db w')) = S (size (users (db w)))
  ∧ students (db w) !! uid = None
  ∧ students (db w')
    = (if student then <[uid := ∅]> (students (db w)) else students (db w))
  ∧ size (students (db w'))
    = (if student then S (size (students (db w))) else size (students (db w)))
  ∧ courses (db w') = courses (db w)
  ∧ session w' = session w
  ∧ flash w'
    = (flash w ++ [(success,
        "Registration successful! Please login with your credentials.")])%list.
Proof.
  intros Hname Haddr Hraw Hrole Hn Ha Hr Hro Hfree Hmail Hfk uid student u w'.
  assert (users (db w) !! uid = None) as Huid by apply next_pk_fresh.
  assert (students (db w) !! uid = None) as Hsid.
  { apply not_elem_of_dom. intros Hin. apply Hfk in Hin.
    by apply not_elem_of_dom in Huid. }
  assert (bool_decide (lower role_ = "student") = student) as Hst.
  { unfold student. destruct (caseless_eq role_ "student") eqn:E.
    - apply bool_decide_eq_true_2. by apply (lower_caseless role_ "student").
    - apply bool_decide_eq_false_2. intros Hl.
      apply (lower_caseless role_ "student") in Hl. congruence. }
  subst w'. unfold RegisterView_post.
  rewrite Hname, Haddr, Hraw, Hrole. cbv zeta. cbn [forallb].
  rewrite !truthy_Some by done. simpl. run.
  destruct (exists_row _ (users (db w))) eqn:E1.
  { rewrite <- Hname in E1.
    apply (username_exists_in_use (db w) request) in E1.
    destruct E1 as (name' & Hn' & Ht). destruct Hfree. congruence. }
  clear E1.
  destruct (exists_row _ (users (db w))) eqn:E2.
  { rewrite <- Haddr in E2.
    apply (email_exists_in_use (db w) request) in E2.
    destruct E2 as (a' & Ha' & Ht). destruct Hmail. congruence. }
  clear E2. rewrite Hst. fold uid.
  destruct student; simpl.
  - rewrite Hsid. simpl. fold u.
    rewrite !map_size_insert_None by done. done.
  - fold u. rewrite !map_size_insert_None by done. done.
Qed.

(** ** Student dashboard *)

Lemma elem_of_keys {A} (m : gmap Z A) (k : Z) :
  k ∈ (map_to_list m).*1 ↔ is_Some (m !! k).
Proof.
  rewrite list_elem_of_fmap. split.
  - intros ([k' x] & -> & Hin%elem_of_map_to_list). by exists x.
  - intros [x Hx]. exists (k, x). by rewrite elem_of_map_to_list.
Qed.

(** Excluding the keys of the enrolled courses from all courses is the
    difference of the two tables. *)
Lemma exclude_is_difference (all enrolled : gmap Z Course) :
  filter (λ kc, kc.1 ∉ (map_to_list enrolled).*1) all = all ∖ enrolled.
Proof.
  apply map_eq. intros k. apply option_eq. intros c.
  rewrite map_lookup_filter_Some, lookup_difference_Some. simpl.
  rewrite elem_of_keys, <- eq_None_not_Some. done.
Qed.

Lemma ensure_profile_lookup st uid :
  students (ensure_profile st uid) !! uid = Some (enrolled_of st uid).
Proof.
  unfold ensure_profile, enrolled_of.
  destruct (students st !! uid) eqn:E; simpl; [done|apply lookup_insert_eq].
Qed.

Lemma ensure_profile_enrolled_of st uid uid' :
  enrolled_of (ensure_profile st uid) uid' = enrolled_of st uid'.
Proof.
  unfold ensure_profile, enrolled_of.
  destruct (students st !! uid) eqn:E; simpl; [done|].
  rewrite lookup_insert. case_decide; [by subst; rewrite E|done].
Qed.

Lemma ensure_profile_courses st uid :
  courses (ensure_profile st uid) = courses st.
Proof. unfold ensure_profile. by destruct (students st !! uid). Qed.

Lemma ensure_profile_users st uid :
  users (ensure_profile st uid) = users st.
Proof. unfold ensure_profile. by destruct (students st !! uid). Qed.

(** The first lines of both student handlers: the profile is created when
    it is missing, and the handler goes on in the resulting world. *)
Lemma with_profile_run {A} user (rest : M A) w :
  (has <- hasattr_student_profile user ;;
   when (negb has) (Student_objects_create user) ;; rest) w
  = rest (mkWorld (ensure_profile (db w) user.1) (session w) (flash w)).
Proof.
  run. unfold ensure_profile.
  destruct (students (db w) !! user.1) eqn:E; simpl.
  - by destruct w.
  - by rewrite E.
Qed.

(** C6. A GET of the student dashboard by a logged-in user whose role is
    not Student is refused with AccessDenied and redirected to login,
    nothing else changing.  For a student, a missing profile is created
    (nothing else in the store changes), and the page is rendered with
    the stored courses the student is enrolled in, with
    available = all courses minus the enrolled ones, and with
    can_enroll = (the number of enrolled courses < 2). *)
Theorem student_dashboard_get w request user :
  request_user w = Some user →
  (role user.2 ≠ "Student" →
   student_dashboard_GET request w
   = (inr (Redirect "login"), flashed w error AccessDenied))
  ∧ (role user.2 = "Student" →
     let st := ensure_profile (db w) user.1 in
     let enrolled :=
       filter (λ kc, kc.1 ∈ enrolled_of (db w) user.1) (courses (db w)) in
     let available := courses (db w) ∖ enrolled in
     student_dashboard_GET request w
     = (inr (Render "student-dashboard.html"
               (StudentContext enrolled available
                  (bool_decide (size enrolled < 2)%nat))),
        mkWorld st (session w) (flash w))
     ∧ is_Some (students st !! user.1)).
Proof.
  intros Hu. unfold student_dashboard_GET, LoginRequiredMixin. rewrite Hu.
  unfold StudentDashboardView_get. split; intros Hrole.
  - by rewrite bool_decide_eq_false_2 by done.
  - rewrite Hrole. simpl.
    rewrite with_profile_run. run.
    rewrite ensure_profile_lookup. simpl.
    rewrite ensure_profile_courses, exclude_is_difference.
    split; [done|]. by eexists.
Qed.

(** ** Student dashboard: enrolling *)

Lemma enroll_at_limit w request user enrolled course :
  request_user w = Some user →
  role user.2 = "Student" →
  students (db w) !! user.1 = Some enrolled →
  (2 ≤ size enrolled)%nat →
  POST request !! "action" = Some "enroll" →
  resolves (db w) (POST request !! "course_id") course →
  student_dashboard_POST request w
  = (inr (Redirect "student-dashboard"),
     flashed w error EnrollmentLimitExceeded).
Proof.
  intros Hu Hrole Hst Hsz Hact (text & Hcid & Hkey & Hc).
  unfold student_dashboard_POST, LoginRequiredMixin. rewrite Hu.
  unfold StudentDashboardView_post.
  rewrite Hrole, Hact, Hcid. run.
  rewrite Hst. simpl. rewrite Hkey, Hc, Hst.
  destruct (Z.geb_spec (Z.of_nat (size enrolled)) 2); [done | lia].
Qed.

(** C1. A student who is enrolled in two or more courses and posts
    'enroll' with a course_id that names a stored course is refused with
    EnrollmentLimitExceeded: the response is the redirect to the
    dashboard, the error is flashed and nothing else in the world
    changes, so the enrolled set is as it was.  Consequently no sequence
    of requests, of any clients and to any of the views (sequences of
    enroll and drop posts among them), takes a store in which every
    student has at most two courses to one in which some student has
    more. *)
Theorem enrollment_limit w request user enrolled course :
  request_user w = Some user →
  role user.2 = "Student" →
  students (db w) !! user.1 = Some enrolled →
  (2 ≤ size enrolled)%nat →
  POST request !! "action" = Some "enroll" →
  resolves (db w) (POST request !! "course_id") course →
  student_dashboard_POST request w
  = (inr (Redirect "student-dashboard"),
     flashed w error EnrollmentLimitExceeded)
  ∧ enrolled_of (db (student_dashboard_POST request w).2) user.1 = enrolled
  ∧ ∀ hits st, enrollment_cap st → enrollment_cap (serve_all st hits).
Proof.
  intros Hu Hrole Hst Hsz Hact Hres.
  pose proof (enroll_at_limit _ _ _ _ _ Hu Hrole Hst Hsz Hact Hres) as Heq.
  split; [done|]. split; [|intros hits st; apply cap_serve_all].
  rewrite Heq. unfold enrolled_of. simpl. by rewrite Hst.
Qed.

(** ** Student dashboard: dropping, and other actions *)

Lemma difference_absent (s : gset Z) (k : Z) : k ∉ s → s ∖ {[k]} = s.
Proof.
  intros Hk. apply set_eq. intros x.
  rewrite elem_of_difference, elem_of_singleton.
  split; [tauto|]. intros Hx. split; [done|]. by intros ->.
Qed.

(** C7, as the code has it.  For a student who posts 'drop': when
    course_id names a stored course, the course is removed from the
    enrolled set and success is reported, also when the course was not in
    the set, which then stays as it was; when course_id is absent, or
    converts to a key that no course has, CourseNotFound is reported and
    the enrolled set stays as it was; when course_id is a text that is not
    a key at all, the error text of the failed conversion is reported
    instead, and the enrolled set stays as it was. *)
Theorem drop_course w request user :
  request_user w = Some user →
  role user.2 = "Student" →
  POST request !! "action" = Some "drop" →
  let st := ensure_profile (db w) user.1 in
  let before := enrolled_of (db w) user.1 in
  let result := student_dashboard_POST request w in
  (∀ course, resolves (db w) (POST request !! "course_id") course →
     result
     = (inr (Redirect "student-dashboard"),
        mkWorld (mkStore (users st)
                   (<[user.1 := before ∖ {[course.1]}]> (students st))
                   (courses st))
          (session w)
          (flash w ++ [(success,
                        "Successfully dropped " ++ course_name course.2)]))
     ∧ enrolled_of (db result.2) user.1 = before ∖ {[course.1]}
     ∧ (course.1 ∉ before → enrolled_of (db result.2) user.1 = before))
  ∧ ((POST request !! "course_id" = None
      ∨ ∃ text k, POST request !! "course_id" = Some text
                  ∧ to_python text = Some k ∧ courses (db w) !! k = None) →
     result
     = (inr (Redirect "student-dashboard"),
        mkWorld st (session w) (flash w ++ [(error, CourseNotFound)]))
     ∧ enrolled_of (db result.2) user.1 = before)
  ∧ (∀ text, POST request !! "course_id" = Some text →
     to_python text = None →
     result
     = (inr (Redirect "student-dashboard"),
        mkWorld st (session w) (flash w ++ [(error, str (BadKey text))]))
     ∧ enrolled_of (db result.2) user.1 = before).
Proof.
  intros Hu Hrole Hact st before result. subst result.
  unfold student_dashboard_POST, LoginRequiredMixin. rewrite Hu.
  unfold StudentDashboardView_post. rewrite Hrole, Hact. simpl.
  rewrite with_profile_run. fold st.
  assert (students st !! user.1 = Some before) as Hst
    by apply ensure_profile_lookup.
  assert (enrolled_of st user.1 = before) as Hbefore
    by apply ensure_profile_enrolled_of.
  assert (courses st = courses (db w)) as Hcs
    by apply ensure_profile_courses.
  split; [|split].
  - intros course (text & Hcid & Hkey & Hc). rewrite Hcid. run.
    rewrite Hkey, Hcs, Hc. simpl. rewrite Hst. simpl.
    assert (enrolled_of
              (mkStore (users st)
                 (<[user.1 := before ∖ {[course.1]}]> (students st))
                 (courses st)) user.1 = before ∖ {[course.1]}) as Hafter.
    { unfold enrolled_of. simpl. by rewrite lookup_insert_eq. }
    rewrite Hafter. split; [by rewrite Hcs|]. split; [done|].
    intros Hk. by apply difference_absent.
  - intros [Hcid|(text & k & Hcid & Hkey & Hc)]; rewrite Hcid; run.
    + done.
    + rewrite Hkey, Hcs, Hc. done.
  - intros text Hcid Hkey. rewrite Hcid. run. rewrite Hkey. done.
Qed.

(** C10. A student's POST whose action is neither 'enroll' nor 'drop'
    (or is missing) and whose course_id names a stored course is ignored
    without a message: the response is the redirect to student-dashboard,
    nothing is flashed, the enrolled set of every user, the courses and
    the users are as they were; the only possible change of the store is
    the empty profile that the handler creates for a student who has
    none. *)
Theorem unknown_action_ignored w request user course :
  request_user w = Some user →
  role user.2 = "Student" →
  POST request !! "action" ≠ Some "enroll" →
  POST request !! "action" ≠ Some "drop" →
  resolves (db w) (POST request !! "course_id") course →
  let result := student_dashboard_POST request w in
  result
  = (inr (Redirect "student-dashboard"),
     mkWorld (ensure_profile (db w) user.1) (session w) (flash w))
  ∧ (∀ uid, enrolled_of (db result.2) uid = enrolled_of (db w) uid)
  ∧ courses (db result.2) = courses (db w)
  ∧ users (db result.2) = users (db w)
  ∧ (is_Some (students (db w) !! user.1) → result.2 = w).
Proof.
  intros Hu Hrole Hne Hnd (text & Hcid & Hkey & Hc) result. subst result.
  unfold student_dashboard_POST, LoginRequiredMixin. rewrite Hu.
  unfold StudentDashboardView_post. rewrite Hrole, Hcid. simpl.
  rewrite with_profile_run. unfold is_text.
  rewrite !bool_decide_eq_false_2 by done. run.
  rewrite Hkey, ensure_profile_courses, Hc. simpl.
  repeat split.
  - intros uid. apply ensure_profile_enrolled_of.
  - apply ensure_profile_courses.
  - apply ensure_profile_users.
  - intros [s Hs]. unfold ensure_profile. rewrite Hs. by destruct w.
Qed.

(** ** Faculty dashboard: update and delete *)

(** The lookup of [update] and [delete] finds the course exactly when the
    requester owns it; otherwise it raises, and [DoesNotExist] when the
    text is a key. *)
Lemma get_owned w user course_id course :
  owned (db w) user course_id course →
  Course_objects_get course_id (Some user) w = (inr course, w).
Proof.
  intros [(text & -> & Hkey & Hc) Hown]. run. rewrite Hkey, Hc.
  rewrite bool_decide_eq_true_2 by done. by destruct course.
Qed.

Lemma get_not_owned w user course_id :
  (∀ course, ¬ owned (db w) user course_id course) →
  ∃ e, Course_objects_get course_id (Some user) w = (inl e, w)
       ∧ (∀ text, course_id = Some text → is_Some (to_python text) →
          e = DoesNotExist)
       ∧ (∀ text, course_id = Some text → to_python text = None →
          e = Raised (BadKey text)).
Proof.
  intros Hno. run. destruct course_id as [text|].
  - destruct (to_python text) as [k|] eqn:Hkey.
    + destruct (courses (db w) !! k) as [c|] eqn:Hc.
      * case_bool_decide as Hown.
        { destruct (Hno (k, c)). split; [by exists text|done]. }
        exists DoesNotExist. split; [done|]. split; [done|].
        intros ? [= <-] ?. congruence.
      * exists DoesNotExist. split; [done|]. split; [done|].
        intros ? [= <-] ?. congruence.
    + exists (Raised (BadKey text)). split; [done|]. split.
      * intros ? [= <-] [? ?]. congruence.
      * by intros ? [= <-] _.
  - exists DoesNotExist. by repeat split.
Qed.

Lemma owned_or_not st user course_id :
  (∃ course, owned st user course_id course)
  ∨ (∀ course, ¬ owned st user course_id course).
Proof.
  destruct course_id as [text|];
    [|right; by intros course [(? & [=] & _) _]].
  destruct (to_python text) as [k|] eqn:Hkey;
    [|right; intros course [(? & [= <-] & ? & _) _]; congruence].
  destruct (courses st !! k) as [c|] eqn:Hc;
    [|right; intros course [(? & [= <-] & ? & ?) _]; congruence].
  destruct (decide (instructor c = user.1)) as [Hown|Hown].
  - left. exists (k, c). split; [by exists text|done].
  - right. intros course [(? & [= <-] & ? & ?) ?].
    assert (course.1 = k) as Hk by congruence. rewrite Hk in *. congruence.
Qed.

(** What an [update] post does, case by case. *)
Lemma update_result w request user :
  request_user w = Some user →
  role user.2 = "Faculty" →
  POST request !! "action" = Some "update" →
  let course_id := POST request !! "course_id" in
  let result := faculty_dashboard_POST request w in
  (truthy course_id = false →
   result = (inr (Redirect "faculty-dashboard"), w))
  ∧ (truthy course_id = true →
     ∀ course, owned (db w) user course_id course →
     result
     = (inr (Redirect "faculty-dashboard"),
        match credits_refused (credits (updated request course.2)) with
        | None =>
            mkWorld
              (mkStore (users (db w)) (students (db w))
                 (<[course.1 := updated request course.2]> (courses (db w))))
              (session w)
              (flash w ++ [(success, "Course updated successfully")])
        | Some e => flashed w error (str e)
        end))
  ∧ (truthy course_id = true →
     (∀ course, ¬ owned (db w) user course_id course) →
     ∃ text msg,
       course_id = Some text
       ∧ result = (inr (Redirect "faculty-dashboard"), flashed w error msg)
       ∧ (is_Some (to_python text) → msg = CourseNotFound)
       ∧ (to_python text = None → msg = str (BadKey text))).
Proof.
  intros Hu Hrole Hact course_id result. subst result.
  unfold faculty_dashboard_POST, LoginRequiredMixin. rewrite Hu.
  unfold FacultyDashboardView_post. rewrite Hrole, Hact. simpl.
  fold course_id. repeat split.
  - intros ->. by destruct w.
  - intros -> course Hown. cbv beta delta [bind try_except].
    rewrite (get_owned _ _ _ _ Hown). run.
    by destruct (credits_refused _).
  - intros Htrue Hno. rewrite Htrue. cbv beta delta [bind try_except].
    destruct (get_not_owned _ _ _ Hno) as (e & -> & Hkey & Hbad).
    destruct course_id as [text|] eqn:Hcid; [|done].
    exists text. destruct (to_python text) as [k|] eqn:Hk.
    + rewrite (Hkey text) by (done || by eexists).
      exists CourseNotFound. by repeat split.
    + rewrite (Hbad text) by done.
      exists (str (BadKey text)). split; [done|]. split; [done|].
      split; [by intros [? ?]|done].
Qed.

(** What a [delete] post does when the lookup does not fail on the key:
    the own course is deleted, everything else is refused or ignored. *)
Lemma delete_result w request user :
  request_user w = Some user →
  role user.2 = "Faculty" →
  POST request !! "action" = Some "delete" →
  let course_id := POST request !! "course_id" in
  let result := faculty_dashboard_POST request w in
  (truthy course_id = false →
   result = (inr (Redirect "faculty-dashboard"), w))
  ∧ (truthy course_id = true →
     ∀ course, owned (db w) user course_id course →
     result
     = (inr (Redirect "faculty-dashboard"),
        mkWorld
          (mkStore (users (db w))
             ((λ enrolled, enrolled ∖ {[course.1]}) <$> students (db w))
             (delete course.1 (courses (db w))))
          (session w)
          (flash w ++ [(success, "Course deleted successfully")])))
  ∧ (truthy course_id = true →
     (∀ course, ¬ owned (db w) user course_id course) →
     ∃ text,
       course_id = Some text
       ∧ (is_Some (to_python text) →
          result
          = (inr (Redirect "faculty-dashboard"),
             flashed w error CourseNotFound))
       ∧ (to_python text = None → result = (inl (Raised (BadKey text)), w))).
Proof.
  intros Hu Hrole Hact course_id result. subst result.
  unfold faculty_dashboard_POST, LoginRequiredMixin. rewrite Hu.
  unfold FacultyDashboardView_post. rewrite Hrole, Hact. simpl.
  fold course_id. repeat split.
  - intros ->. by destruct w.
  - intros -> course Hown. cbv beta delta [bind try_except].
    rewrite (get_owned _ _ _ _ Hown). by run.
  - intros Htrue Hno. rewrite Htrue. cbv beta delta [bind try_except].
    destruct (get_not_owned _ _ _ Hno) as (e & -> & Hkey & Hbad).
    destruct course_id as [text|] eqn:Hcid; [|done].
    exists text. split; [done|]. split.
    + intros Hk. by rewrite (Hkey text).
    + intros Hk. by rewrite (Hbad text).
Qed.

Lemma flash_not_grown (l : list (Level * string)) x : l ≠ (l ++ [x])%list.
Proof.
  intros Heq. apply (f_equal length) in Heq.
  rewrite length_app in Heq. simpl in Heq. lia.
Qed.

(** C2, as the code has it.  For a faculty user who posts 'update' or
    'delete' with a course_id that names no course of theirs (no such
    course, a course of another instructor, no key at all): the store is
    never changed; when course_id is not empty and converts to a key, the
    answer is CourseNotFound; when course_id is absent or empty, the post
    is ignored without any message; when it is not empty and is not a
    key, 'update' reports the error text of the failed conversion.  And a
    post that reports success names a course whose instructor is the
    requester. *)
Theorem update_delete_scoped w request user action :
  request_user w = Some user →
  role user.2 = "Faculty" →
  POST request !! "action" = Some action →
  action = "update" ∨ action = "delete" →
  let course_id := POST request !! "course_id" in
  let result := faculty_dashboard_POST request w in
  ((∀ course, ¬ owned (db w) user course_id course) →
   db result.2 = db w
   ∧ (truthy course_id = false →
      result = (inr (Redirect "faculty-dashboard"), w))
   ∧ (∀ text, course_id = Some text → text ≠ "" →
      is_Some (to_python text) →
      result
      = (inr (Redirect "faculty-dashboard"), flashed w error CourseNotFound))
   ∧ (∀ text, course_id = Some text → text ≠ "" →
      to_python text = None → action = "update" →
      result
      = (inr (Redirect "faculty-dashboard"),
         flashed w error (str (BadKey text)))))
  ∧ ((∃ msg, flash result.2 = (flash w ++ [(success, msg)])%list) →
     ∃ course, owned (db w) user course_id course).
Proof.
  intros Hu Hrole Hact Hkind course_id result. subst course_id.
  assert ((∀ course, ¬ owned (db w) user (POST request !! "course_id") course) →
          db result.2 = db w
          ∧ (∀ msg, flash result.2 ≠ (flash w ++ [(success, msg)])%list)
          ∧ (truthy (POST request !! "course_id") = false →
             result = (inr (Redirect "faculty-dashboard"), w))
          ∧ (∀ text, POST request !! "course_id" = Some text → text ≠ "" →
             is_Some (to_python text) →
             result
             = (inr (Redirect "faculty-dashboard"),
                flashed w error CourseNotFound))
          ∧ (∀ text, POST request !! "course_id" = Some text → text ≠ "" →
             to_python text = None → action = "update" →
             result
             = (inr (Redirect "faculty-dashboard"),
                flashed w error (str (BadKey text))))) as Hmain.
  { intros Hno. destruct (truthy (POST request !! "course_id")) eqn:Htruthy.
    - destruct Hkind as [-> | ->].
      + destruct (update_result w request user Hu Hrole Hact)
          as (_ & _ & Hrefused).
        destruct (Hrefused Htruthy Hno) as (text & msg & Hcid & Hres & Hk & Hb).
        fold result in Hres. rewrite Hres. simpl.
        split; [done|]. split.
        { intros m Heq. apply app_inj_tail in Heq. by destruct Heq. }
        split; [done|]. split.
        * intros text' Hcid' _ Hkey. f_equal. f_equal. f_equal.
          apply Hk. congruence.
        * intros text' Hcid' _ Hkey _.
          assert (text' = text) as -> by congruence. by rewrite Hb.
      + destruct (delete_result w request user Hu Hrole Hact)
          as (_ & _ & Hrefused).
        destruct (Hrefused Htruthy Hno) as (text & Hcid & Hk & Hb).
        fold result in Hk, Hb.
        destruct (to_python text) as [k|] eqn:Hkey.
        * rewrite Hk by by eexists. simpl.
          split; [done|]. split.
          { intros m Heq. apply app_inj_tail in Heq. by destruct Heq. }
          split; [done|]. split; [done|].
          intros text' Hcid' _ Hkey' _. congruence.
        * rewrite Hb by done. simpl.
          split; [done|]. split; [intros m; apply flash_not_grown|].
          split; [done|]. split; [|done].
          intros text' Hcid' _ [k Hkey']. congruence.
    - assert (result = (inr (Redirect "faculty-dashboard"), w)) as Hres.
      { destruct Hkind as [-> | ->].
        - by apply (update_result w request user Hu Hrole Hact).
        - by apply (delete_result w request user Hu Hrole Hact). }
      rewrite Hres. simpl.
      split; [done|]. split; [intros m; apply flash_not_grown|].
      split; [done|].
      split; intros text Hcid Hne; rewrite Hcid in Htruthy;
        by rewrite truthy_Some in Htruthy. }
  split.
  - intros Hno. destruct (Hmain Hno) as (? & _ & ? & ? & ?). done.
  - intros [msg Hmsg].
    destruct (owned_or_not (db w) user (POST request !! "course_id")) as [|Hno]; [done|].
    destruct (Hmain Hno) as (_ & Hflash & _). by destruct (Hflash msg).
Qed.

(** C8. An 'update' post of a faculty user leaves every course with the
    instructor it had: no course appears or disappears, a course other
    than the one that course_id names is not touched at all, and the
    users and the profiles are as they were; so the course that is
    updated can differ from what it was in its name, its code and its
    credits only. *)
Theorem update_keeps_instructor w request user :
  request_user w = Some user →
  role user.2 = "Faculty" →
  POST request !! "action" = Some "update" →
  let after := db (faculty_dashboard_POST request w).2 in
  (∀ k, instructor <$> courses after !! k
        = instructor <$> courses (db w) !! k)
  ∧ (∀ k c c', courses (db w) !! k = Some c → courses after !! k = Some c' →
     c' = mkCourse (course_name c') (course_code c') (credits c')
            (instructor c))
  ∧ (∀ k text, POST request !! "course_id" = Some text →
     to_python text ≠ Some k →
     courses after !! k = courses (db w) !! k)
  ∧ users after = users (db w)
  ∧ students after = students (db w).
Proof.
  intros Hu Hrole Hact after.
  assert (∀ k, instructor <$> courses after !! k
               = instructor <$> courses (db w) !! k) as Hinstr.
  { intros k. subst after.
    destruct (update_result w request user Hu Hrole Hact)
      as (Hignored & Hsaved & Hrefused).
    destruct (truthy (POST request !! "course_id")) eqn:Htruthy;
      [|by rewrite Hignored].
    destruct (owned_or_not (db w) user (POST request !! "course_id"))
      as [[course Hown]|Hno].
    - rewrite (Hsaved eq_refl course Hown).
      destruct (credits_refused _); [done|]. simpl.
      destruct Hown as [(text & Hcid & Hkey & Hc) Hown].
      rewrite lookup_insert. case_decide; [|done]. subst k.
      by rewrite Hc.
    - destruct (Hrefused eq_refl Hno) as (text & msg & _ & -> & _). done. }
  split; [done|]. split; [|split].
  - intros k c c' Hc Hc'. specialize (Hinstr k).
    rewrite Hc, Hc' in Hinstr. injection Hinstr as <-. by destruct c'.
  - intros k text Hcid Hkey. subst after.
    destruct (update_result w request user Hu Hrole Hact)
      as (Hignored & Hsaved & Hrefused).
    destruct (truthy (POST request !! "course_id")) eqn:Htruthy;
      [|by rewrite Hignored].
    destruct (owned_or_not (db w) user (POST request !! "course_id"))
      as [[course Hown]|Hno].
    + rewrite (Hsaved eq_refl course Hown).
      destruct (credits_refused _); [done|]. simpl.
      destruct Hown as [(text' & Hcid' & Hkey' & Hc) Hown].
      apply lookup_insert_ne. intros <-. congruence.
    + destruct (Hrefused eq_refl Hno) as (text' & msg & _ & -> & _). done.
  - subst after.
    destruct (update_result w request user Hu Hrole Hact)
      as (Hignored & Hsaved & Hrefused).
    destruct (truthy (POST request !! "course_id")) eqn:Htruthy;
      [|by rewrite Hignored].
    destruct (owned_or_not (db w) user (POST request !! "course_id"))
      as [[course Hown]|Hno].
    + rewrite (Hsaved eq_refl course Hown).
      by destruct (credits_refused _).
    + destruct (Hrefused eq_refl Hno) as (text' & msg & _ & -> & _). done.
Qed.

(** C9. An 'update' post of a faculty user on a course of theirs leaves
    the course stored with, for each of name, code and credits, the
    stored value when the form does not carry the field, and with the
    instructor it had: nothing but the fields that the form carries is
    overwritten (and these only when the store takes the submitted
    values; when it refuses them nothing is written). *)
Theorem update_keeps_absent_fields w request user course :
  request_user w = Some user →
  role user.2 = "Faculty" →
  POST request !! "action" = Some "update" →
  truthy (POST request !! "course_id") = true →
  owned (db w) user (POST request !! "course_id") course →
  ∃ saved,
    courses (db (faculty_dashboard_POST request w).2) !! course.1 = Some saved
    ∧ (POST request !! "name" = None → course_name saved = course_name course.2)
    ∧ (POST request !! "code" = None → course_code saved = course_code course.2)
    ∧ (POST request !! "credits" = None → credits saved = credits course.2)
    ∧ instructor saved = instructor course.2.
Proof.
  intros Hu Hrole Hact Htruthy Hown.
  destruct (update_result w request user Hu Hrole Hact) as (_ & Hsaved & _).
  rewrite (Hsaved Htruthy course Hown).
  destruct (credits_refused _); simpl.
  - exists course.2. destruct Hown as [(text & _ & _ & Hc) _]. by repeat split.
  - exists (updated request course.2). rewrite lookup_insert_eq.
    unfold updated. simpl. repeat split; by intros ->.
Qed.

(** ** Every request writes the store by the catalogued changes *)

Lemma request_user_stored w user :
  request_user w = Some user → users (db w) !! user.1 = Some user.2.
Proof.
  unfold request_user. destruct (session w) as [uid|]; [|done]. simpl.
  destruct (users (db w) !! uid) as [u|] eqn:Hu; [|done].
  by intros [= <-].
Qed.

Lemma ensure_profile_changes st uid u :
  users st !! uid = Some u → rtc change st (ensure_profile st uid).
Proof.
  intros Hu. unfold ensure_profile.
  destruct (students st !! uid) eqn:E; [done|].
  by eapply rtc_once, profile_created.
Qed.

Lemma StudentDashboardView_get_changes user request w :
  users (db w) !! user.1 = Some user.2 →
  rtc change (db w) (db (StudentDashboardView_get user request w).2).
Proof.
  intros Hu. unfold StudentDashboardView_get.
  destruct (bool_decide (role user.2 = "Student")); simpl; [|done].
  rewrite with_profile_run. run.
  rewrite ensure_profile_lookup. simpl.
  by eapply ensure_profile_changes.
Qed.

Lemma StudentDashboardView_post_changes user request w :
  users (db w) !! user.1 = Some user.2 →
  rtc change (db w) (db (StudentDashboardView_post user request w).2).
Proof.
  intros Hu. unfold StudentDashboardView_post.
  destruct (bool_decide (role user.2 = "Student")); simpl; [|done].
  rewrite with_profile_run.
  etransitivity; [by eapply ensure_profile_changes|].
  pose proof (ensure_profile_lookup (db w) user.1) as Hst.
  set (st := ensure_profile (db w) user.1) in *.
  set (before := enrolled_of (db w) user.1) in *.
  run.
  destruct (POST request !! "course_id") as [text|]; [|done].
  destruct (to_python text) as [k|]; [|done].
  destruct (courses st !! k) as [c|] eqn:Hc; [|done].
  destruct (is_text (POST request !! "action") "enroll"); simpl.
  - rewrite Hst. simpl.
    destruct (Z.geb_spec (Z.of_nat (size before)) 2); simpl; [done|].
    rewrite Hst. simpl. eapply rtc_once, course_enrolled; [done|lia|done].
  - destruct (is_text (POST request !! "action") "drop"); simpl; [|done].
    rewrite Hst. simpl. by eapply rtc_once, course_dropped.
Qed.

Lemma FacultyDashboardView_post_changes user request w :
  users (db w) !! user.1 = Some user.2 →
  rtc change (db w) (db (FacultyDashboardView_post user request w).2).
Proof.
  intros Hu. unfold FacultyDashboardView_post.
  case_bool_decide as Hrole; simpl; [|done].
  destruct (is_text (POST request !! "action") "create"); simpl.
  { run. destruct (POST request !! "credits" ≫= credits_refused); [done|].
    destruct (POST request !! "name") as [name|]; [|done].
    destruct (POST request !! "code") as [code|]; [|done].
    destruct (POST request !! "credits") as [credits|]; [|done].
    simpl. by eapply rtc_once, (course_created _ (mkCourse _ _ _ _)). }
  destruct (is_text (POST request !! "action") "delete"
            && truthy (POST request !! "course_id")); simpl.
  { run. destruct (POST request !! "course_id") as [text|]; [|done].
    destruct (to_python text) as [k|]; [|done].
    destruct (courses (db w) !! k) as [c|] eqn:Hc; [|done].
    case_bool_decide; simpl; [|done].
    by eapply rtc_once, course_deleted. }
  destruct (is_text (POST request !! "action") "update"
            && truthy (POST request !! "course_id")); simpl; [|done].
  run. destruct (POST request !! "course_id") as [text|]; [|done].
  destruct (to_python text) as [k|]; [|done].
  destruct (courses (db w) !! k) as [c|] eqn:Hc; [|done].
  case_bool_decide; simpl; [|done].
  destruct (credits_refused _); simpl; [done|].
  by eapply rtc_once, (course_updated _ _ _ (mkCourse _ _ _ _)).
Qed.

Lemma LoginView_post_changes request w :
  rtc change (db w) (db (LoginView_post request w).2).
Proof.
  unfold LoginView_post. destruct (forallb truthy _); simpl; [|done].
  run. destruct (authenticate _ _ _) as [user|] eqn:Hauth; [|done].
  destruct (startswith _ _ && _); simpl.
  - by eapply rtc_once, role_repaired.
  - by case_bool_decide.
Qed.

Lemma RegisterView_post_changes request w :
  rtc change (db w) (db (RegisterView_post request w).2).
Proof.
  unfold RegisterView_post.
  destruct (forallb truthy _) eqn:Hfill; simpl; [|done].
  run.
  destruct (exists_row _ (users (db w))) eqn:Hname; [done|].
  assert (¬ username_in_use (db w) request) as Hfree.
  { intros Hin%username_exists_in_use. congruence. }
  clear Hname.
  destruct (exists_row _ (users (db w))) eqn:Hmail; [done|].
  assert (¬ email_in_use (db w) request) as Hfree'.
  { intros Hin%email_exists_in_use. congruence. }
  clear Hmail. cbn [forallb] in Hfill. rewrite !andb_true_iff in Hfill.
  destruct Hfill as (Hu & He & _).
  destruct (POST request !! "username") as [name|] eqn:Hn; [|done].
  destruct (POST request !! "email") as [address|] eqn:Ha; [|done].
  simpl.
  set (r := if bool_decide _ then "Student" else "Faculty").
  set (u := mkUser name address _ r).
  assert (change (db w)
            (mkStore (<[next_pk (users (db w)) := u]> (users (db w)))
               (students (db w)) (courses (db w)))) as Hcreated.
  { apply user_created; simpl.
    - intros Htaken. apply Hfree. by exists name.
    - intros Htaken. apply Hfree'. by exists address.
    - subst r. destruct (bool_decide _); auto. }
  destruct (bool_decide (lower _ = "student")); simpl.
  - destruct (students (db w) !! next_pk (users (db w))) eqn:Hp; simpl.
    + by apply rtc_once.
    + eapply rtc_l; [exact Hcreated|].
      apply rtc_once.
      exact (profile_created
               (mkStore (<[next_pk (users (db w)) := u]> (users (db w)))
                  (students (db w)) (courses (db w)))
               (next_pk (users (db w))) u
               (lookup_insert_eq (users (db w)) _ u) Hp).
  - by apply rtc_once.
Qed.

Lemma dispatch_changes v request w :
  rtc change (db w) (db (dispatch v request w).2).
Proof.
  destruct v; simpl;
    unfold student_dashboard_GET, student_dashboard_POST,
      faculty_dashboard_GET, faculty_dashboard_POST, LoginRequiredMixin.
  - apply LoginView_post_changes.
  - apply RegisterView_post_changes.
  - destruct (request_user w) as [user|] eqn:Hu; [|done].
    by apply StudentDashboardView_get_changes, request_user_stored.
  - destruct (request_user w) as [user|] eqn:Hu; [|done].
    by apply StudentDashboardView_post_changes, request_user_stored.
  - destruct (request_user w) as [user|] eqn:Hu; [|done].
    unfold FacultyDashboardView_get. by destruct (bool_decide _).
  - destruct (request_user w) as [user|] eqn:Hu; [|done].
    by apply FacultyDashboardView_post_changes, request_user_stored.
Qed.

Lemma serve_all_changes hits st : rtc change st (serve_all st hits).
Proof.
  revert st. induction hits as [|hit hits IH]; intros st; [done|].
  simpl. etransitivity; [|apply IH].
  apply (dispatch_changes hit.1.2 hit.2 (mkWorld st hit.1.1 [])).
Qed.

(** A property that every catalogued change keeps is kept by every
    sequence of requests. *)
Lemma invariant_serve_all (I : Store → Prop) :
  (∀ st st', change st st' → I st → I st') →
  ∀ hits st, I st → I (serve_all st hits).
Proof.
  intros Hstep hits st Hst.
  induction (serve_all_changes hits st) as [|st1 st2 st3 Hc _ IH]; [done|].
  apply IH. by eapply Hstep.
Qed.

(** ** Invariants of the store under every sequence of requests *)

Lemma change_keeps_enrolled_courses st st' :
  change st st' → enrolled_courses_exist st → enrolled_courses_exist st'.
Proof.
  intros Hc Hst uid' s'.
  destruct Hc as [uid u Hu Hp|uid s k c Hs Hsz Hk|uid s k Hs|u|name raw user
                 |c u Hu Hr|k c c' Hk Hi|k c Hk]; simpl.
  - rewrite lookup_insert. case_decide; [|by apply Hst].
    intros [= <-]. apply empty_subseteq.
  - rewrite lookup_insert. case_decide; [|by apply Hst].
    intros [= <-] x. rewrite elem_of_union, elem_of_singleton.
    intros [->|Hx]; [apply elem_of_dom; by eexists|by eapply Hst].
  - rewrite lookup_insert. case_decide; [|by apply Hst].
    intros [= <-] x [Hx _]%elem_of_difference. by eapply Hst.
  - by apply Hst.
  - by apply Hst.
  - intros Hs x Hx. rewrite dom_insert_L. apply elem_of_union_r.
    by eapply Hst.
  - intros Hs x Hx. rewrite dom_insert_L. apply elem_of_union_r.
    by eapply Hst.
  - rewrite lookup_fmap. destruct (students st !! uid') as [s|] eqn:Hs; [|done].
    intros [= <-] x [Hx Hne]%elem_of_difference.
    rewrite dom_delete_L. apply elem_of_difference. split; [|done].
    by eapply Hst.
Qed.

Lemma change_keeps_instructors st st' :
  change st st' → instructors_are_faculty st → instructors_are_faculty st'.
Proof.
  intros Hc Hst k' c'' Hk'.
  destruct Hc as [uid u Hu Hp|uid s k c Hs Hsz Hk|uid s k Hs|u|name raw user Ha
                 |c u Hu Hr|k c c' Hk Hi|k c Hk]; simpl in *.
  - by eapply Hst.
  - by eapply Hst.
  - by eapply Hst.
  - destruct (Hst _ _ Hk') as (u' & Hu' & Hr'). exists u'. split; [|done].
    rewrite lookup_insert_ne; [done|]. intros Heq.
    pose proof (next_pk_fresh (users st)) as Hfresh. congruence.
  - destruct (Hst _ _ Hk') as (u' & Hu' & Hr').
    rewrite lookup_insert. case_decide; [by eexists|by exists u'].
  - rewrite lookup_insert in Hk'. case_decide.
    + injection Hk' as <-. by exists u.
    + by eapply Hst.
  - rewrite lookup_insert in Hk'. case_decide.
    + injection Hk' as <-. rewrite Hi. by eapply Hst.
    + by eapply Hst.
  - apply lookup_delete_Some in Hk' as [_ Hk']. by eapply Hst.
Qed.

Lemma change_keeps_roles st st' :
  change st st' → roles_known st → roles_known st'.
Proof.
  intros Hc Hst k' u' Hk'.
  destruct Hc as [uid u Hu Hp|uid s k c Hs Hsz Hk|uid s k Hs|u Hn He Hr
                 |name raw user Ha|c u Hu Hr|k c c' Hk Hi|k c Hk];
    simpl in *; try (by eapply Hst).
  - rewrite lookup_insert in Hk'. case_decide; [|by eapply Hst].
    by injection Hk' as <-.
  - rewrite lookup_insert in Hk'. case_decide; [|by eapply Hst].
    injection Hk' as <-. by right.
Qed.

Lemma change_keeps_usernames st st' :
  authenticate_stored →
  change st st' → usernames_unique st → usernames_unique st'.
Proof.
  intros Hstored Hc Hst k1 k2 u1 u2 H1 H2 Heq.
  destruct Hc as [uid u Hu Hp|uid s k c Hs Hsz Hk|uid s k Hs|u Hn He Hr
                 |name raw user Ha|c u Hu Hr|k c c' Hk Hi|k c Hk];
    simpl in *; try (by eapply Hst).
  - apply lookup_insert_Some in H1 as [[E1 <-]|[E1 H1]];
      apply lookup_insert_Some in H2 as [[E2 <-]|[E2 H2]].
    + congruence.
    + destruct Hn. by exists k2, u2.
    + destruct Hn. by exists k1, u1.
    + by eapply Hst.
  - apply Hstored in Ha.
    apply lookup_insert_Some in H1 as [[E1 <-]|[E1 H1]];
      apply lookup_insert_Some in H2 as [[E2 <-]|[E2 H2]].
    + congruence.
    + rewrite E1 in Ha. by eapply Hst.
    + rewrite E2 in Ha. by eapply Hst.
    + by eapply Hst.
Qed.

(** X1. Whatever sequence of requests is served, a student is enrolled
    in stored courses only: [add] is given a course that the lookup has
    just found, and deleting a course removes it from every enrolled
    set. *)
Theorem enrolled_courses_always_exist hits st :
  enrolled_courses_exist st → enrolled_courses_exist (serve_all st hits).
Proof.
  apply invariant_serve_all. intros st1 st2. apply change_keeps_enrolled_courses.
Qed.

(** X2. Whatever sequence of requests is served, the instructor of every
    course is a stored user whose role is Faculty: a course is created
    for the requester after the role check, update keeps the instructor,
    and the only change of a stored role is the one to Faculty. *)
Theorem instructors_always_faculty hits st :
  instructors_are_faculty st → instructors_are_faculty (serve_all st hits).
Proof.
  apply invariant_serve_all. intros st1 st2. apply change_keeps_instructors.
Qed.

(** X3. Whatever sequence of requests is served, every stored role is
    "Student" or "Faculty": registration normalises the submitted role
    and login only ever sets "Faculty". *)
Theorem roles_always_known hits st :
  roles_known st → roles_known (serve_all st hits).
Proof.
  apply invariant_serve_all. intros st1 st2. apply change_keeps_roles.
Qed.

(** X4. With a backend that authenticates stored users only, no sequence
    of requests makes two users share a username: registration refuses a
    username that is taken, and login writes back the row it read with
    nothing but the role changed. *)
Theorem usernames_stay_unique hits st :
  authenticate_stored →
  usernames_unique st →
  usernames_unique (serve_all st hits).
Proof.
  intros Hstored Hu.
  apply (invariant_serve_all usernames_unique); [|done].
  intros st1 st2. by apply change_keeps_usernames.
Qed.

(** X5. With a backend that authenticates stored users only, no request
    deletes a user or changes a username, an email or a password: after
    any sequence of requests a stored user is still stored under the same
    key with these three columns as they were, and with the role it had
    or the role Faculty. *)
Theorem users_persist hits st k u :
  authenticate_stored →
  users st !! k = Some u →
  ∃ u', users (serve_all st hits) !! k = Some u'
        ∧ username u' = username u ∧ email u' = email u
        ∧ password u' = password u
        ∧ (role u' = role u ∨ role u' = "Faculty").
Proof.
  intros Hstored Hk.
  set (I := λ st', ∃ u', users st' !! k = Some u'
                         ∧ username u' = username u ∧ email u' = email u
                         ∧ password u' = password u
                         ∧ (role u' = role u ∨ role u' = "Faculty")).
  assert (I st) as Hst by (exists u; repeat split; auto).
  apply (invariant_serve_all I); [|done]. clear Hst Hk.
  intros st1 st2 Hc (u' & Hu' & Hn & He & Hp & Hr).
  destruct Hc as [uid u0 Hu0 Hp0|uid s k0 c Hs Hsz Hk0|uid s k0 Hs|u0 Hn0 He0 Hr0
                 |name raw user Ha|c u0 Hu0 Hr0|k0 c c' Hk0 Hi|k0 c Hk0];
    try (by exists u').
  - exists u'. split; [|done]. simpl. rewrite lookup_insert_ne; [done|].
    intros Heq. pose proof (next_pk_fresh (users st1)). congruence.
  - apply Hstored in Ha. unfold I. simpl.
    destruct (decide (user.1 = k)) as [Heq|Hne].
    + rewrite Heq in *. rewrite lookup_insert_eq.
      assert (user.2 = u') as -> by congruence.
      exists (set_role u' "Faculty"). simpl. repeat split; auto.
    + rewrite lookup_insert_ne by done. by exists u'.
Qed.

(** ** Student dashboard: what else a post does *)

(** The store that a student handler leaves differs from the one it
    found in the profile of the requester only. *)
Lemma StudentDashboardView_post_frame user request w :
  let after := db (StudentDashboardView_post user request w).2 in
  users after = users (db w) ∧ courses after = courses (db w)
  ∧ ∀ uid, uid ≠ user.1 → students after !! uid = students (db w) !! uid.
Proof.
  unfold StudentDashboardView_post.
  destruct (bool_decide (role user.2 = "Student")); simpl; [|done].
  rewrite with_profile_run.
  pose proof (ensure_profile_lookup (db w) user.1) as Hst.
  assert (∀ uid, uid ≠ user.1 →
            students (ensure_profile (db w) user.1) !! uid
            = students (db w) !! uid) as Hother.
  { intros uid Hne. unfold ensure_profile.
    destruct (students (db w) !! user.1); [done|].
    simpl. by rewrite lookup_insert_ne. }
  rewrite <- (ensure_profile_users (db w) user.1).
  rewrite <- (ensure_profile_courses (db w) user.1).
  set (st := ensure_profile (db w) user.1) in *.
  set (before := enrolled_of (db w) user.1) in *.
  run.
  destruct (POST request !! "course_id") as [text|]; [|done].
  destruct (to_python text) as [k|]; [|done].
  destruct (courses st !! k) as [c|] eqn:Hc; [|done].
  destruct (is_text (POST request !! "action") "enroll"); simpl.
  - rewrite Hst. simpl.
    destruct (Z.geb_spec (Z.of_nat (size before)) 2); simpl; [done|].
    rewrite Hst. simpl. repeat split.
    intros uid Hne. rewrite lookup_insert_ne by done. by apply Hother.
  - destruct (is_text (POST request !! "action") "drop"); simpl; [|done].
    rewrite Hst. simpl. repeat split.
    intros uid Hne. rewrite lookup_insert_ne by done. by apply Hother.
Qed.

(** X6. A post to the student dashboard, whatever the form and whoever
    sends it, changes neither the users nor the courses, and no profile
    but the one of the logged-in user. *)
Theorem student_post_frame w request :
  let after := db (student_dashboard_POST request w).2 in
  users after = users (db w) ∧ courses after = courses (db w)
  ∧ ∀ uid, session w ≠ Some uid →
           students after !! uid = students (db w) !! uid.
Proof.
  unfold student_dashboard_POST, LoginRequiredMixin.
  destruct (request_user w) as [user|] eqn:Hu; [|done].
  destruct (StudentDashboardView_post_frame user request w) as (? & ? & Hs).
  split; [done|]. split; [done|]. intros uid Hne. apply Hs.
  intros ->. apply Hne. unfold request_user in Hu.
  destruct (session w) as [uid|]; [|done]. simpl in Hu.
  destruct (users (db w) !! uid); [|done]. by injection Hu as <-.
Qed.

(** What an 'enroll' post below the limit, and a 'drop' post, leave. *)
Lemma enroll_result w request user course :
  request_user w = Some user →
  role user.2 = "Student" →
  POST request !! "action" = Some "enroll" →
  resolves (db w) (POST request !! "course_id") course →
  (size (enrolled_of (db w) user.1) < 2)%nat →
  let st := ensure_profile (db w) user.1 in
  student_dashboard_POST request w
  = (inr (Redirect "student-dashboard"),
     mkWorld (mkStore (users st)
                (<[user.1 := {[course.1]} ∪ enrolled_of (db w) user.1]>
                   (students st))
                (courses st))
       (session w)
       (flash w ++ [(success,
                     "Successfully enrolled in " ++ course_name course.2)])).
Proof.
  intros Hu Hrole Hact (text & Hcid & Hkey & Hc) Hsz st.
  unfold student_dashboard_POST, LoginRequiredMixin. rewrite Hu.
  unfold StudentDashboardView_post. rewrite Hrole, Hact, Hcid. simpl.
  rewrite with_profile_run. fold st.
  assert (students st !! user.1 = Some (enrolled_of (db w) user.1)) as Hst
    by apply ensure_profile_lookup.
  assert (courses st = courses (db w)) as Hcs
    by apply ensure_profile_courses.
  run. rewrite Hkey, Hcs, Hc. simpl. rewrite Hst. simpl.
  destruct (Z.geb_spec (Z.of_nat (size (enrolled_of (db w) user.1))) 2)
    as [Hge|_]; [lia|].
  simpl. rewrite Hst. simpl. by rewrite Hcs.
Qed.

Lemma drop_result w request user course :
  request_user w = Some user →
  role user.2 = "Student" →
  POST request !! "action" = Some "drop" →
  resolves (db w) (POST request !! "course_id") course →
  let st := ensure_profile (db w) user.1 in
  student_dashboard_POST request w
  = (inr (Redirect "student-dashboard"),
     mkWorld (mkStore (users st)
                (<[user.1 := enrolled_of (db w) user.1 ∖ {[course.1]}]>
                   (students st))
                (courses st))
       (session w)
       (flash w ++ [(success,
                     "Successfully dropped " ++ course_name course.2)])).
Proof.
  intros Hu Hrole Hact (text & Hcid & Hkey & Hc) st.
  unfold student_dashboard_POST, LoginRequiredMixin. rewrite Hu.
  unfold StudentDashboardView_post. rewrite Hrole, Hact, Hcid. simpl.
  rewrite with_profile_run. fold st.
  assert (students st !! user.1 = Some (enrolled_of (db w) user.1)) as Hst
    by apply ensure_profile_lookup.
  assert (courses st = courses (db w)) as Hcs
    by apply ensure_profile_courses.
  run. rewrite Hkey, Hcs, Hc. simpl. rewrite Hst. simpl. by rewrite Hcs.
Qed.

Lemma request_user_same w w' :
  session w' = session w → users (db w') = users (db w) →
  request_user w' = request_user w.
Proof. intros Hs Hu. unfold request_user. by rewrite Hs, Hu. Qed.

Lemma union_difference_singleton (s : gset Z) (k : Z) :
  k ∉ s → ({[k]} ∪ s) ∖ {[k]} = s.
Proof.
  intros Hk. apply set_eq. intros x.
  rewrite elem_of_difference, elem_of_union, elem_of_singleton.
  split; [tauto|]. intros Hx. split; [by right|]. by intros ->.
Qed.

(** X7. A student with fewer than two courses who posts 'enroll' with a
    course_id that names a stored course is enrolled in it: the course is
    added to the student's set, success is reported with the course
    name, and the set has at most two courses afterwards; enrolling in a
    course that is already in the set leaves the set as it was and is
    reported as success all the same. *)
Theorem enroll_below_limit w request user course :
  request_user w = Some user →
  role user.2 = "Student" →
  POST request !! "action" = Some "enroll" →
  resolves (db w) (POST request !! "course_id") course →
  (size (enrolled_of (db w) user.1) < 2)%nat →
  let st := ensure_profile (db w) user.1 in
  let before := enrolled_of (db w) user.1 in
  let result := student_dashboard_POST request w in
  result
  = (inr (Redirect "student-dashboard"),
     mkWorld (mkStore (users st)
                (<[user.1 := {[course.1]} ∪ before]> (students st))
                (courses st))
       (session w)
       (flash w ++ [(success,
                     "Successfully enrolled in " ++ course_name course.2)]))
  ∧ enrolled_of (db result.2) user.1 = {[course.1]} ∪ before
  ∧ (course.1 ∈ before → enrolled_of (db result.2) user.1 = before)
  ∧ (size (enrolled_of (db result.2) user.1) ≤ 2)%nat.
Proof.
  intros Hu Hrole Hact Hres Hsz st before result. subst result.
  rewrite (enroll_result w request user course Hu Hrole Hact Hres Hsz).
  fold st before. simpl.
  assert (enrolled_of
            (mkStore (users st)
               (<[user.1 := {[course.1]} ∪ before]> (students st))
               (courses st)) user.1 = {[course.1]} ∪ before) as Hafter.
  { unfold enrolled_of. simpl. by rewrite lookup_insert_eq. }
  rewrite Hafter. split; [done|]. split; [done|]. split.
  - intros Hin. apply subseteq_union_1_L. by apply singleton_subseteq_l.
  - rewrite size_union_alt, size_singleton.
    pose proof (size_difference_le before course.1). fold before in Hsz. lia.
Qed.

(** X9. Enrolling in a course and dropping it again is a round trip: for
    a student with fewer than two courses and a stored course that is
    not among them, an 'enroll' post followed by a 'drop' post with the
    same course_id leaves the store as the first post found it (with the
    student's profile in it). *)
Theorem enroll_then_drop w enroll drop user course :
  request_user w = Some user →
  role user.2 = "Student" →
  POST enroll !! "action" = Some "enroll" →
  POST drop !! "action" = Some "drop" →
  POST drop !! "course_id" = POST enroll !! "course_id" →
  resolves (db w) (POST enroll !! "course_id") course →
  (size (enrolled_of (db w) user.1) < 2)%nat →
  course.1 ∉ enrolled_of (db w) user.1 →
  db (student_dashboard_POST drop (student_dashboard_POST enroll w).2).2
  = ensure_profile (db w) user.1.
Proof.
  intros Hu Hrole Hen Hdr Hsame Hres Hsz Hnew.
  rewrite (enroll_result w enroll user course Hu Hrole Hen Hres Hsz). simpl.
  set (st := ensure_profile (db w) user.1).
  set (before := enrolled_of (db w) user.1) in *.
  set (w1 := mkWorld _ _ _).
  assert (students st !! user.1 = Some before) as Hst
    by apply ensure_profile_lookup.
  assert (request_user w1 = Some user) as Hu1.
  { rewrite <- Hu. apply request_user_same; [done|].
    apply ensure_profile_users. }
  assert (resolves (db w1) (POST drop !! "course_id") course) as Hres1.
  { rewrite Hsame. destruct Hres as (text & ? & ? & Hc).
    exists text. split; [done|]. split; [done|].
    simpl. unfold st. by rewrite ensure_profile_courses. }
  pose proof (drop_result w1 drop user course Hu1 Hrole Hdr Hres1) as Hd.
  cbv zeta in Hd.
  assert (ensure_profile (db w1) user.1 = db w1) as Hens.
  { unfold ensure_profile. simpl. by rewrite lookup_insert_eq. }
  assert (enrolled_of (db w1) user.1 = {[course.1]} ∪ before) as Henr.
  { unfold enrolled_of. simpl. by rewrite lookup_insert_eq. }
  rewrite Hens, Henr in Hd. rewrite Hd. simpl.
  rewrite insert_insert_eq, union_difference_singleton by done.
  rewrite insert_id by done. by destruct st.
Qed.

(** X8. The course is looked up before the action is: a student's post
    whose course_id is absent, or converts to a key that no course has,
    is answered with CourseNotFound whatever the action is (enroll, drop,
    anything else, none), and changes nothing but for the empty profile
    of a student who had none. *)
Theorem course_lookup_comes_first w request user :
  request_user w = Some user →
  role user.2 = "Student" →
  (POST request !! "course_id" = None
   ∨ ∃ text k, POST request !! "course_id" = Some text
               ∧ to_python text = Some k ∧ courses (db w) !! k = None) →
  student_dashboard_POST request w
  = (inr (Redirect "student-dashboard"),
     mkWorld (ensure_profile (db w) user.1) (session w)
       (flash w ++ [(error, CourseNotFound)])).
Proof.
  intros Hu Hrole Hcid.
  unfold student_dashboard_POST, LoginRequiredMixin. rewrite Hu.
  unfold StudentDashboardView_post. rewrite Hrole. simpl.
  rewrite with_profile_run.
  destruct Hcid as [Hcid|(text & k & Hcid & Hkey & Hc)]; rewrite Hcid; run.
  - done.
  - by rewrite Hkey, ensure_profile_courses, Hc.
Qed.

(** ** The gates of the dashboards *)

(** X10. The student dashboard serves students only.  A request, GET or
    POST, of a client who is not logged in is redirected to the login
    address and changes nothing at all; one of a logged-in user whose
    role is not Student is redirected to login with AccessDenied
    flashed; in both cases the store is as it was, whatever the form
    asks for. *)
Theorem student_dashboard_gate w request :
  (∀ user, request_user w = Some user → role user.2 ≠ "Student") →
  (request_user w = None →
   student_dashboard_GET request w = (inr (Redirect login_url), w)
   ∧ student_dashboard_POST request w = (inr (Redirect login_url), w))
  ∧ (is_Some (request_user w) →
     student_dashboard_GET request w
     = (inr (Redirect "login"), flashed w error AccessDenied)
     ∧ student_dashboard_POST request w
       = (inr (Redirect "login"), flashed w error AccessDenied))
  ∧ db (student_dashboard_GET request w).2 = db w
  ∧ db (student_dashboard_POST request w).2 = db w.
Proof.
  intros Hrole.
  unfold student_dashboard_GET, student_dashboard_POST, LoginRequiredMixin,
    StudentDashboardView_get, StudentDashboardView_post.
  destruct (request_user w) as [user|] eqn:Hu.
  - rewrite bool_decide_eq_false_2 by by apply Hrole. simpl.
    split; [done|]. by repeat split.
  - split; [done|]. split; [by intros [? ?]|done].
Qed.

(** X11. The faculty dashboard serves faculty only: a request of a client
    who is not logged in is redirected to the login address and changes
    nothing; one of a logged-in user whose role is not Faculty is
    redirected to login with the faculty AccessDenied message flashed;
    in both cases the store is as it was, so such a user can neither
    create, nor update, nor delete a course. *)
Theorem faculty_dashboard_gate w request :
  (∀ user, request_user w = Some user → role user.2 ≠ "Faculty") →
  (request_user w = None →
   faculty_dashboard_GET request w = (inr (Redirect login_url), w)
   ∧ faculty_dashboard_POST request w = (inr (Redirect login_url), w))
  ∧ (is_Some (request_user w) →
     faculty_dashboard_GET request w
     = (inr (Redirect "login"), flashed w error AccessDeniedFaculty)
     ∧ faculty_dashboard_POST request w
       = (inr (Redirect "login"), flashed w error AccessDeniedFaculty))
  ∧ db (faculty_dashboard_GET request w).2 = db w
  ∧ db (faculty_dashboard_POST request w).2 = db w.
Proof.
  intros Hrole.
  unfold faculty_dashboard_GET, faculty_dashboard_POST, LoginRequiredMixin,
    FacultyDashboardView_get, FacultyDashboardView_post.
  destruct (request_user w) as [user|] eqn:Hu.
  - rewrite bool_decide_eq_false_2 by by apply Hrole. simpl.
    split; [done|]. by repeat split.
  - split; [done|]. split; [by intros [? ?]|done].
Qed.

(** ** Faculty dashboard: listing, creating, deleting *)

(** X12. The faculty dashboard lists the courses of the requester and no
    other: a course is on the page exactly when it is stored with the
    requester as its instructor; rendering the page changes nothing. *)
Theorem faculty_dashboard_lists_own_courses w request user :
  request_user w = Some user →
  role user.2 = "Faculty" →
  ∃ listed,
    faculty_dashboard_GET request w
    = (inr (Render "faculty-dashboard.html" (FacultyContext listed)), w)
    ∧ ∀ k c, listed !! k = Some c
             ↔ courses (db w) !! k = Some c ∧ instructor c = user.1.
Proof.
  intros Hu Hrole. unfold faculty_dashboard_GET, LoginRequiredMixin.
  rewrite Hu. unfold FacultyDashboardView_get. rewrite Hrole. simpl. run.
  eexists. split; [done|]. intros k c. by rewrite map_lookup_filter_Some.
Qed.


Lemma enrolled_of_after_delete st k uid users' courses' :
  enrolled_of
    (mkStore users' ((λ enrolled, enrolled ∖ {[k]}) <$> students st) courses')
    uid
  = enrolled_of st uid ∖ {[k]}.
Proof.
  unfold enrolled_of. simpl. rewrite lookup_fmap.
  destruct (students st !! uid); simpl; [done|].
  apply set_eq. intros x. rewrite elem_of_difference.
  split; [by intros ?%not_elem_of_empty|by intros [?%not_elem_of_empty _]].
Qed.

(** X14. A faculty user who posts 'delete' on a course of theirs deletes
    it: the course is no longer stored, it is removed from the enrolled
    set of every student, the other courses and the users are untouched,
    and success is reported.  Posting the same form again is answered
    with CourseNotFound and changes nothing. *)
Theorem delete_own_course w request user text course :
  request_user w = Some user →
  role user.2 = "Faculty" →
  POST request !! "action" = Some "delete" →
  POST request !! "course_id" = Some text →
  text ≠ "" →
  owned (db w) user (POST request !! "course_id") course →
  let result := faculty_dashboard_POST request w in
  flash result.2 = (flash w ++ [(success, "Course deleted successfully")])%list
  ∧ courses (db result.2) = delete course.1 (courses (db w))
  ∧ courses (db result.2) !! course.1 = None
  ∧ (∀ uid, enrolled_of (db result.2) uid
            = enrolled_of (db w) uid ∖ {[course.1]})
  ∧ users (db result.2) = users (db w)
  ∧ faculty_dashboard_POST request result.2
    = (inr (Redirect "faculty-dashboard"),
       flashed result.2 error CourseNotFound).
Proof.
  intros Hu Hrole Hact Hcid Hne Hown result.
  assert (truthy (POST request !! "course_id") = true) as Htruthy.
  { rewrite Hcid. by apply truthy_Some. }
  destruct (delete_result w request user Hu Hrole Hact) as (_ & Hdel & _).
  specialize (Hdel Htruthy course Hown). fold result in Hdel.
  rewrite Hdel. simpl.
  split; [done|]. split; [done|]. split; [apply lookup_delete_eq|].
  split; [intros uid; apply enrolled_of_after_delete|]. split; [done|].
  set (w1 := mkWorld _ _ _).
  assert (request_user w1 = Some user) as Hu1.
  { rewrite <- Hu. by apply request_user_same. }
  destruct (delete_result w1 request user Hu1 Hrole Hact) as (_ & _ & Hrefused).
  destruct (Hrefused Htruthy) as (text' & Hcid' & Hfound & _).
  { intros course' [(t & Ht & Hkey' & Hc') _].
    destruct Hown as [(t0 & Ht0 & Hkey & _) _].
    assert (course'.1 = course.1) as Hk by congruence.
    simpl in Hc'. rewrite Hk, lookup_delete_eq in Hc'. done. }
  apply Hfound. destruct Hown as [(t0 & Ht0 & Hkey & _) _].
  assert (text' = t0) as -> by congruence. by eexists.
Qed.

(** ** Login, logout and the login page *)

(** X15. A login that fails logs nobody in and writes nothing to the
    store.  With the username or the password not filled in, the login
    page is rendered with 'Please fill in all fields', which is also
    flashed; with both filled in and credentials that the backend
    refuses, the page is rendered with 'Invalid credentials' and the
    world is exactly as it was. *)
Theorem login_failure w request :
  let username := POST request !! "username" in
  let password := POST request !! "password" in
  (truthy username = false ∨ truthy password = false →
   LoginView_post request w
   = (inr (Render "login.html" (ErrorMessage "Please fill in all fields")),
      flashed w error "Please fill in all fields"))
  ∧ (truthy username = true → truthy password = true →
     authenticate (db w) (text_of username) (text_of password) = None →
     LoginView_post request w
     = (inr (Render "login.html" (ErrorMessage "Invalid credentials")), w)).
Proof.
  intros username password. unfold LoginView_post. fold username password.
  cbn [forallb]. split.
  - intros [-> | ->]; [done|]. by rewrite andb_false_r.
  - intros -> -> Hauth. simpl. run. by rewrite Hauth.
Qed.

(** X16. A login that succeeds and needs no repair (the username does not
    start with "faculty", or the role is Faculty already) writes nothing
    to the store: it makes the session the user's and redirects a
    Faculty user to faculty-dashboard and every other user to
    student-dashboard. *)
Theorem login_without_repair w request name raw user :
  POST request !! "username" = Some name →
  POST request !! "password" = Some raw →
  name ≠ "" → raw ≠ "" →
  authenticate (db w) name raw = Some user →
  startswith name "faculty" = false ∨ role user.2 = "Faculty" →
  LoginView_post request w
  = (inr (Redirect (if bool_decide (role user.2 = "Faculty")
                    then "faculty-dashboard" else "student-dashboard")),
     mkWorld (db w) (Some user.1) (flash w)).
Proof.
  intros Hname Hraw Hn Hr Hauth Hplain.
  unfold LoginView_post. rewrite Hname, Hraw. cbv zeta. cbn [forallb].
  rewrite !truthy_Some by done. simpl. run. rewrite Hauth.
  assert (startswith name "faculty"
          && negb (bool_decide (role user.2 = "Faculty")) = false) as ->.
  { destruct Hplain as [-> | Hrole]; [done|].
    rewrite bool_decide_eq_true_2 by done. apply andb_false_r. }
  by case_bool_decide.
Qed.

(** X17. A logged-in user who opens the login page (without the 'back'
    action) right after a successful login is sent where the login sent
    them, provided the backend authenticates stored users only; the page
    changes nothing. *)
Theorem login_page_after_login w request query name raw user :
  authenticate_stored →
  POST request !! "username" = Some name →
  POST request !! "password" = Some raw →
  name ≠ "" → raw ≠ "" →
  authenticate (db w) name raw = Some user →
  GET query !! "action" ≠ Some "back" →
  let logged := LoginView_post request w in
  LoginView_get query logged.2 = (logged.1, logged.2).
Proof.
  intros Hstored Hname Hraw Hn Hr Hauth Hback logged.
  assert (∃ user',
            logged
            = (inr (Redirect (if bool_decide (role user'.2 = "Faculty")
                              then "faculty-dashboard"
                              else "student-dashboard")),
               logged.2)
            ∧ request_user logged.2 = Some user') as (user' & Hlogged & Hu).
  { subst logged. unfold LoginView_post. rewrite Hname, Hraw.
    cbv zeta. cbn [forallb]. rewrite !truthy_Some by done. simpl. run.
    rewrite Hauth.
    destruct (startswith name "faculty"
              && negb (bool_decide (role user.2 = "Faculty"))); simpl.
    - exists (user.1, set_role user.2 "Faculty"). split; [done|].
      unfold request_user. simpl. by rewrite lookup_insert_eq.
    - exists user. split; [by case_bool_decide|].
      assert (request_user (mkWorld (db w) (Some user.1) (flash w))
              = Some user) as Hreq.
      { unfold request_user. simpl. rewrite (Hstored _ _ _ _ Hauth). simpl.
        by destruct user. }
      by case_bool_decide. }
  rewrite Hlogged at 2. simpl.
  unfold LoginView_get, is_text. rewrite bool_decide_eq_false_2 by done.
  unfold current_user. run. rewrite Hu. by case_bool_decide.
Qed.

(** X18. Logout ends the session and touches nothing in the store: the
    response is the redirect to index with the cookie clear_tokens=true
    (max_age 10) and the three no-cache headers, and afterwards every
    dashboard request of the client, GET or POST, student or faculty, is
    redirected to the login address without changing anything. *)
Theorem logout_ends_session w request :
  let result := LogoutView_get w in
  let w' := result.2 in
  result.1
  = inr (mkHttpResponse (Redirect "index")
           {[ "clear_tokens" := ("true", 10) ]}
           (<["Expires" := "0"]>
              (<["Pragma" := "no-cache"]>
                 {[ "Cache-Control" := "no-cache, no-store, must-revalidate" ]})))
  ∧ db w' = db w
  ∧ session w' = None
  ∧ student_dashboard_GET request w' = (inr (Redirect login_url), w')
  ∧ student_dashboard_POST request w' = (inr (Redirect login_url), w')
  ∧ faculty_dashboard_GET request w' = (inr (Redirect login_url), w')
  ∧ faculty_dashboard_POST request w' = (inr (Redirect login_url), w').
Proof.
  intros result w'. subst w' result. unfold LogoutView_get, logout. run.
  unfold set_header, set_cookie. simpl.
  rewrite !insert_empty. by repeat split.
Qed.

(** ** Registration followed by login *)

(** What a registration that passes the three checks leaves. *)
Lemma register_result w request name address raw role_ :
  POST request !! "username" = Some name →
  POST request !! "email" = Some address →
  POST request !! "password" = Some raw →
  POST request !! "role" = Some role_ →
  name ≠ "" → address ≠ "" → raw ≠ "" → role_ ≠ "" →
  ¬ username_taken (db w) name →
  ¬ email_taken (db w) address →
  profiles_have_users (db w) →
  let uid := next_pk (users (db w)) in
  let student := bool_decide (lower role_ = "student") in
  let u := mkUser name address (make_password raw)
             (if student then "Student" else "Faculty") in
  RegisterView_post request w
  = (inr (Redirect "login"),
     mkWorld
       (mkStore (<[uid := u]> (users (db w)))
          (if student then <[uid := ∅]> (students (db w))
           else students (db w))
          (courses (db w)))
       (session w)
       (flash w ++ [(success,
          "Registration successful! Please login with your credentials.")])).
Proof.
  intros Hname Haddr Hraw Hrole Hn Ha Hr Hro Hfree Hmail Hfk uid student u.
  assert (users (db w) !! uid = None) as Huid by apply next_pk_fresh.
  assert (students (db w) !! uid = None) as Hsid.
  { apply not_elem_of_dom. intros Hin. apply Hfk in Hin.
    by apply not_elem_of_dom in Huid. }
  unfold RegisterView_post.
  rewrite Hname, Haddr, Hraw, Hrole. cbv zeta. cbn [forallb].
  rewrite !truthy_Some by done. simpl. run.
  destruct (exists_row _ (users (db w))) eqn:E1.
  { rewrite <- Hname in E1.
    apply (username_exists_in_use (db w) request) in E1.
    destruct E1 as (name' & Hn' & Ht). destruct Hfree. congruence. }
  clear E1.
  destruct (exists_row _ (users (db w))) eqn:E2.
  { rewrite <- Haddr in E2.
    apply (email_exists_in_use (db w) request) in E2.
    destruct E2 as (a' & Ha' & Ht). destruct Hmail. congruence. }
  clear E2. fold student uid.
  destruct student; simpl; [|done]. by rewrite Hsid.
Qed.

(** X19. Registering as a student under a username that starts with
    "faculty" does not last: at the first login the role is repaired to
    Faculty, the user is sent to faculty-dashboard, and from then on the
    student dashboard refuses the user with AccessDenied, GET and POST,
    while the empty student profile made at registration stays in the
    store. *)
Theorem student_named_faculty w register login_ name address raw role_ :
  POST register !! "username" = Some name →
  POST register !! "email" = Some address →
  POST register !! "password" = Some raw →
  POST register !! "role" = Some role_ →
  name ≠ "" → address ≠ "" → raw ≠ "" → role_ ≠ "" →
  ¬ username_taken (db w) name →
  ¬ email_taken (db w) address →
  profiles_have_users (db w) →
  lower role_ = "student" →
  startswith name "faculty" = true →
  POST login_ !! "username" = Some name →
  POST login_ !! "password" = Some raw →
  let uid := next_pk (users (db w)) in
  let registered := (RegisterView_post register w).2 in
  authenticate (db registered) name raw
  = Some (uid, mkUser name address (make_password raw) "Student") →
  let logged := LoginView_post login_ registered in
  logged.1 = inr (Redirect "faculty-dashboard")
  ∧ role <$> users (db logged.2) !! uid = Some "Faculty"
  ∧ students (db logged.2) !! uid = Some ∅
  ∧ ∀ request,
      student_dashboard_GET request logged.2
      = (inr (Redirect "login"), flashed logged.2 error AccessDenied)
      ∧ student_dashboard_POST request logged.2
        = (inr (Redirect "login"), flashed logged.2 error AccessDenied).
Proof.
  intros Hname Haddr Hraw Hrole Hn Ha Hr Hro Hfree Hmail Hfk Hstudent Hpre
    Hlname Hlraw uid registered Hauth logged.
  subst logged registered.
  rewrite (register_result w register name address raw role_) in *
    by done.
  rewrite bool_decide_eq_true_2 in * by done. fold uid in Hauth |- *.
  set (w1 := mkWorld _ _ _) in *. simpl in Hauth |- *.
  assert (LoginView_post login_ w1
          = (inr (Redirect "faculty-dashboard"),
             mkWorld
               (mkStore
                  (<[uid := mkUser name address (make_password raw) "Faculty"]>
                     (users (db w1)))
                  (students (db w1)) (courses (db w1)))
               (Some uid) (flash w1))) as ->.
  { unfold LoginView_post. rewrite Hlname, Hlraw. cbv zeta. cbn [forallb].
    rewrite !truthy_Some by done. simpl. run.
    rewrite Hauth, Hpre. simpl. done. }
  simpl. split; [done|]. split; [by rewrite lookup_insert_eq|].
  split; [by rewrite lookup_insert_eq|].
  intros request.
  unfold student_dashboard_GET, student_dashboard_POST, LoginRequiredMixin,
    request_user. simpl. rewrite lookup_insert_eq. simpl.
  done.
Qed.

Lemma filter_none (all : gmap Z Course) :
  filter (λ kc : Z * Course, kc.1 ∈ (∅ : gset Z)) all = ∅.
Proof.
  apply map_eq. intros k. rewrite lookup_empty.
  apply map_lookup_filter_None. right. intros c _. apply not_elem_of_empty.
Qed.

(** X20. A student who registers under a username that does not start
    with "faculty", logs in and opens the dashboard: the login redirects
    to student-dashboard, and the dashboard shows no enrolled course,
    every stored course as available, and can_enroll = true, without
    writing to the store. *)
Theorem register_login_dashboard w register login_ request
    name address raw role_ :
  POST register !! "username" = Some name →
  POST register !! "email" = Some address →
  POST register !! "password" = Some raw →
  POST register !! "role" = Some role_ →
  name ≠ "" → address ≠ "" → raw ≠ "" → role_ ≠ "" →
  ¬ username_taken (db w) name →
  ¬ email_taken (db w) address →
  profiles_have_users (db w) →
  lower role_ = "student" →
  startswith name "faculty" = false →
  POST login_ !! "username" = Some name →
  POST login_ !! "password" = Some raw →
  let uid := next_pk (users (db w)) in
  let registered := (RegisterView_post register w).2 in
  authenticate (db registered) name raw
  = Some (uid, mkUser name address (make_password raw) "Student") →
  let logged := LoginView_post login_ registered in
  logged.1 = inr (Redirect "student-dashboard")
  ∧ student_dashboard_GET request logged.2
    = (inr (Render "student-dashboard.html"
              (StudentContext ∅ (courses (db w)) true)),
       logged.2).
Proof.
  intros Hname Haddr Hraw Hrole Hn Ha Hr Hro Hfree Hmail Hfk Hstudent Hpre
    Hlname Hlraw uid registered Hauth logged.
  subst logged registered.
  rewrite (register_result w register name address raw role_) in *
    by done.
  rewrite bool_decide_eq_true_2 in * by done. fold uid in Hauth |- *.
  set (w1 := mkWorld _ _ _) in *. simpl in Hauth |- *.
  assert (LoginView_post login_ w1
          = (inr (Redirect "student-dashboard"),
             mkWorld (db w1) (Some uid) (flash w1))) as ->.
  { unfold LoginView_post. rewrite Hlname, Hlraw. cbv zeta. cbn [forallb].
    rewrite !truthy_Some by done. simpl. run.
    rewrite Hauth, Hpre. simpl. done. }
  simpl. split; [done|].
  unfold student_dashboard_GET, LoginRequiredMixin, request_user. simpl.
  rewrite lookup_insert_eq. simpl.
  unfold StudentDashboardView_get. simpl.
  rewrite with_profile_run. run.
  unfold ensure_profile. simpl. rewrite lookup_insert_eq. simpl.
  rewrite lookup_insert_eq. simpl.
  set (enrolled := filter _ (courses (db w))).
  assert (enrolled = ∅) as -> by apply filter_none.
  rewrite exclude_is_difference, map_difference_empty. done.
Qed.

(** ** Faculty dashboard: an update that the store takes or refuses *)

(** X21. An 'update' post of a faculty user on a course of theirs with a
    credits text that the store refuses writes nothing at all, not even
    the name and the code submitted with it: the error of the store is
    reported and the world is otherwise as it was. *)
Theorem update_refused_value w request user course text e :
  request_user w = Some user →
  role user.2 = "Faculty" →
  POST request !! "action" = Some "update" →
  truthy (POST request !! "course_id") = true →
  owned (db w) user (POST request !! "course_id") course →
  POST request !! "credits" = Some text →
  credits_refused text = Some e →
  faculty_dashboard_POST request w
  = (inr (Redirect "faculty-dashboard"), flashed w error (str e)).
Proof.
  intros Hu Hrole Hact Htruthy Hown Hcredits Hrefused.
  destruct (update_result w request user Hu Hrole Hact) as (_ & Hsaved & _).
  rewrite (Hsaved Htruthy course Hown).
  unfold updated. simpl. rewrite Hcredits. simpl. by rewrite Hrefused.
Qed.


End Properties.

(** * Examples *)

Lemma username_taken_row st name :
  username_taken st name
  ↔ exists_row (λ u, bool_decide (username u = name)) (users st) = true.
Proof.
  rewrite exists_row_true. unfold username_taken.
  by setoid_rewrite bool_decide_eq_true.
Qed.

Lemma email_taken_row st address :
  email_taken st address
  ↔ exists_row (λ u, bool_decide (email u = address)) (users st) = true.
Proof.
  rewrite exists_row_true. unfold email_taken.
  by setoid_rewrite bool_decide_eq_true.
Qed.

Lemma enrollment_limit_witness :
  let request := form [("action", "enroll"); ("course_id", "3")] in
  let w := demo_world (Some 3) in
  student_dashboard_POST request w
  = (inr (Redirect "student-dashboard"),
     flashed w error EnrollmentLimitExceeded)
  ∧ enrolled_of (db (student_dashboard_POST request w).2) 3 = {[1; 2]}
  ∧ ∀ hits st, enrollment_cap st → enrollment_cap (serve_all st hits).
Proof.
  apply (enrollment_limit (demo_world (Some 3))
           (form [("action", "enroll"); ("course_id", "3")])
           carl {[1; 2]} optics).
  - reflexivity.
  - reflexivity.
  - reflexivity.
  - vm_compute. lia.
  - reflexivity.
  - exists "3". repeat split; reflexivity.
Defined.

(** Registering "eve" with the role written "StuDent" in the demo store:
    user 6 is created as a Student, with an empty profile. *)
Lemma register_creates_witness :
  let request := form [("username", "eve"); ("email", "eve@x.org");
                       ("password", "pw6"); ("role", "StuDent")] in
  let w := (RegisterView_post request (demo_world None)).2 in
  (RegisterView_post request (demo_world None)).1 = inr (Redirect "login")
  ∧ users (db w)
    = <[6 := mkUser "eve" "eve@x.org" (demo_hash "pw6") "Student"]> demo_users
  ∧ students (db w) = <[6 := ∅]> demo_students
  ∧ session w = None.
Proof.
  destruct (register_creates (demo_world None)
              (form [("username", "eve"); ("email", "eve@x.org");
                     ("password", "pw6"); ("role", "StuDent")])
              "eve" "eve@x.org" "pw6" "StuDent")
    as (Hresp & _ & Husers & _ & _ & Hstudents & _ & _ & Hsession & _).
  - reflexivity.
  - reflexivity.
  - reflexivity.
  - reflexivity.
  - discriminate.
  - discriminate.
  - discriminate.
  - discriminate.
  - intros Htaken%username_taken_row. vm_compute in Htaken. discriminate.
  - intros Htaken%email_taken_row. vm_compute in Htaken. discriminate.
  - unfold profiles_have_users. apply (bool_decide_unpack _). vm_compute.
    exact I.
  - repeat split; assumption.
Defined.

(** Logging in as "faculty_jane", whose stored role is Student. *)
Lemma login_repairs_faculty_role_witness :
  let request := form [("username", "faculty_jane"); ("password", "pw5")] in
  let result := LoginView_post request (demo_world None) in
  result.1 = inr (Redirect "faculty-dashboard")
  ∧ role <$> users (db result.2) !! 5 = Some "Faculty"
  ∧ session result.2 = Some 5.
Proof.
  destruct (login_repairs_faculty_role (demo_world None)
              (form [("username", "faculty_jane"); ("password", "pw5")])
              "faculty_jane" "pw5" jane)
    as (Hresp & _ & _ & Hrole & _ & Hsession).
  - reflexivity.
  - reflexivity.
  - discriminate.
  - reflexivity.
  - reflexivity.
  - discriminate.
  - split; [by rewrite Hresp|].
    split; [exact (f_equal (fmap role) Hrole)|exact Hsession].
Defined.

(** Registering with the username of a stored user. *)
Lemma register_rejects_witness :
  let request := form [("username", "carl"); ("email", "new@x.org");
                       ("password", "pw"); ("role", "student")] in
  RegisterView_post request (demo_world None)
  = (inr (Render "register.html" (ErrorMessage DuplicateUsername)),
     demo_world None).
Proof.
  destruct (register_rejects (demo_world None)
              (form [("username", "carl"); ("email", "new@x.org");
                     ("password", "pw"); ("role", "student")]))
    as (kind & Hres & _ & Hname & _).
  - right. left. exists "carl". split; [reflexivity|].
    exists 3, carl.2. split; reflexivity.
  - cbv zeta. rewrite Hres, Hname; [reflexivity| |].
    + intros (f & Hf & Hno). unfold required_fields in Hf.
      rewrite !elem_of_cons in Hf.
      destruct Hf as [->|[->|[->|[->|Hf]]]];
        [vm_compute in Hno; discriminate..|by apply elem_of_nil in Hf].
    + exists "carl". split; [reflexivity|].
      exists 3, carl.2. split; reflexivity.
Defined.

(** The dashboard of dora, who is enrolled in course 1 only. *)
Lemma student_dashboard_get_witness :
  ∃ enrolled available,
    (student_dashboard_GET (form []) (demo_world (Some 4))).1
    = inr (Render "student-dashboard.html"
             (StudentContext enrolled available true))
    ∧ available = demo_courses ∖ enrolled
    ∧ enrolled !! 1 = Some logic.2
    ∧ size enrolled = 1%nat.
Proof.
  destruct (student_dashboard_get (demo_world (Some 4)) (form []) dora)
    as [_ Hget]; [reflexivity|].
  destruct (Hget eq_refl) as [Hres _]. rewrite Hres.
  eexists _, _. split; [reflexivity|]. split; [reflexivity|].
  split; vm_compute; reflexivity.
Defined.

(** dora drops course 3, in which she is not enrolled: success is
    reported and her courses are as before. *)
Lemma drop_course_witness :
  let request := form [("action", "drop"); ("course_id", "3")] in
  let result := student_dashboard_POST request (demo_world (Some 4)) in
  flash result.2 = [(success, "Successfully dropped Optics")]
  ∧ enrolled_of (db result.2) 4 = {[1]}.
Proof.
  destruct (drop_course (demo_world (Some 4))
              (form [("action", "drop"); ("course_id", "3")]) dora)
    as (Hfound & _ & _).
  - reflexivity.
  - reflexivity.
  - reflexivity.
  - destruct (Hfound optics) as (Hres & _ & Hsame).
    + exists "3". repeat split; reflexivity.
    + cbv zeta. split; [by rewrite Hres|].
      apply Hsame. apply (bool_decide_unpack _). vm_compute. exact I.
Defined.

(** C7 as stated fails: dora posts 'drop' with the course_id "abc".  No
    course is named by it, and the error that is reported is the one of
    the failed conversion, not CourseNotFound. *)
Lemma drop_course_counterexample :
  let request := form [("action", "drop"); ("course_id", "abc")] in
  let w := demo_world (Some 4) in
  request_user w = Some dora
  ∧ role dora.2 = "Student"
  ∧ POST request !! "action" = Some "drop"
  ∧ (∀ course, ¬ resolves (db w) (POST request !! "course_id") course)
  ∧ student_dashboard_POST request w
    = (inr (Redirect "student-dashboard"),
       flashed w error "Field 'id' expected a number but got 'abc'.")
  ∧ (error, CourseNotFound) ∉ flash (student_dashboard_POST request w).2.
Proof.
  cbv zeta. split; [reflexivity|]. split; [reflexivity|].
  split; [reflexivity|]. split.
  - intros course (text & Hcid & Hkey & _).
    injection Hcid as <-. vm_compute in Hkey. discriminate.
  - split; [reflexivity|].
    intros Hin. vm_compute in Hin. apply list_elem_of_singleton in Hin.
    discriminate.
Qed.

(** dora posts an action that the handler does not know. *)
Lemma unknown_action_ignored_witness :
  let request := form [("action", "peek"); ("course_id", "3")] in
  student_dashboard_POST request (demo_world (Some 4))
  = (inr (Redirect "student-dashboard"), demo_world (Some 4)).
Proof.
  destruct (unknown_action_ignored (demo_world (Some 4))
              (form [("action", "peek"); ("course_id", "3")]) dora optics)
    as (Hres & _).
  - reflexivity.
  - reflexivity.
  - discriminate.
  - discriminate.
  - exists "3". repeat split; reflexivity.
  - cbv zeta. rewrite Hres. reflexivity.
Defined.

(** ann posts 'update' on course 3, which is bob's. *)
Lemma update_delete_scoped_witness :
  let request := form [("action", "update"); ("course_id", "3");
                       ("name", "Mine")] in
  faculty_dashboard_POST request (demo_world (Some 1))
  = (inr (Redirect "faculty-dashboard"),
     flashed (demo_world (Some 1)) error CourseNotFound).
Proof.
  destruct (update_delete_scoped (demo_world (Some 1))
              (form [("action", "update"); ("course_id", "3");
                     ("name", "Mine")]) ann "update")
    as (Hrefused & _).
  - reflexivity.
  - reflexivity.
  - reflexivity.
  - by left.
  - destruct Hrefused as (_ & _ & Hnotfound & _).
    + intros [k c] [(text & Hcid & Hkey & Hc) Hown]. simpl in Hkey, Hc, Hown.
      injection Hcid as <-. vm_compute in Hkey. injection Hkey as <-.
      vm_compute in Hc. injection Hc as <-. discriminate.
    + apply (Hnotfound "3"); [reflexivity|discriminate|by eexists].
Defined.

(** C2 as stated fails: ann posts 'delete' with an empty course_id.  It
    names no course, and the post is ignored: nothing is reported, so
    CourseNotFound is not. *)
Lemma update_delete_scoped_counterexample :
  let request := form [("action", "delete"); ("course_id", "")] in
  let w := demo_world (Some 1) in
  request_user w = Some ann
  ∧ role ann.2 = "Faculty"
  ∧ POST request !! "action" = Some "delete"
  ∧ POST request !! "course_id" = Some ""
  ∧ (∀ course, ¬ owned (db w) ann (POST request !! "course_id") course)
  ∧ faculty_dashboard_POST request w = (inr (Redirect "faculty-dashboard"), w)
  ∧ (error, CourseNotFound) ∉ flash (faculty_dashboard_POST request w).2.
Proof.
  cbv zeta. split; [reflexivity|]. split; [reflexivity|].
  split; [reflexivity|]. split; [reflexivity|]. split.
  - intros course [(text & Hcid & Hkey & _) _].
    injection Hcid as <-. vm_compute in Hkey. discriminate.
  - split; [reflexivity|].
    intros Hin. vm_compute in Hin. by apply elem_of_nil in Hin.
Qed.

(** ann renames her course 1: the instructor of every course is kept. *)
Lemma update_keeps_instructor_witness :
  let request := form [("action", "update"); ("course_id", "1");
                       ("name", "Logic II")] in
  let after := db (faculty_dashboard_POST request (demo_world (Some 1))).2 in
  instructor <$> courses after !! 1 = Some 1
  ∧ courses after !! 3 = demo_courses !! 3.
Proof.
  destruct (update_keeps_instructor (demo_world (Some 1))
              (form [("action", "update"); ("course_id", "1");
                     ("name", "Logic II")]) ann)
    as (Hinstr & _ & Hothers & _).
  - reflexivity.
  - reflexivity.
  - reflexivity.
  - split; [exact (Hinstr 1)|].
    apply (Hothers 3 "1"); [reflexivity|]. vm_compute. discriminate.
Defined.

(** ann renames her course 1 and submits nothing else: the code, the
    credits and the instructor are kept. *)
Lemma update_keeps_absent_fields_witness :
  let request := form [("action", "update"); ("course_id", "1");
                       ("name", "Logic II")] in
  ∃ saved,
    courses (db (faculty_dashboard_POST request (demo_world (Some 1))).2) !! 1
    = Some saved
    ∧ course_code saved = "CS101" ∧ credits saved = "4"
    ∧ instructor saved = 1.
Proof.
  destruct (update_keeps_absent_fields (demo_world (Some 1))
              (form [("action", "update"); ("course_id", "1");
                     ("name", "Logic II")]) ann logic)
    as (saved & Hsaved & _ & Hcode & Hcredits & Hinstr).
  - reflexivity.
  - reflexivity.
  - reflexivity.
  - reflexivity.
  - split; [|reflexivity]. exists "1". repeat split; reflexivity.
  - cbv zeta. exists saved. split; [exact Hsaved|].
    split; [by apply Hcode|]. split; [by apply Hcredits|exact Hinstr].
Defined.

(** ** Examples of the further properties *)

Lemma demo_authenticate_stored : authenticate_stored.
Proof.
  intros st name raw user Hauth. simpl in Hauth. unfold demo_authenticate in Hauth.
  apply head_Some_elem_of, list_elem_of_filter in Hauth as [_ Hin].
  destruct user as [k u]. by apply elem_of_map_to_list in Hin.
Qed.

Lemma empty_store_enrolled : enrolled_courses_exist empty_store.
Proof. intros uid enrolled Hl. simpl in Hl. by rewrite lookup_empty in Hl. Qed.

Lemma empty_store_instructors : instructors_are_faculty empty_store.
Proof. intros k c Hl. simpl in Hl. by rewrite lookup_empty in Hl. Qed.

Lemma empty_store_roles : roles_known empty_store.
Proof. intros k u Hl. simpl in Hl. by rewrite lookup_empty in Hl. Qed.

Lemma empty_store_usernames : usernames_unique empty_store.
Proof. intros k1 k2 u1 u2 Hl. simpl in Hl. by rewrite lookup_empty in Hl. Qed.

Lemma enrolled_courses_always_exist_witness :
  ∃ enrolled,
    students (serve_all empty_store demo_hits) !! 2 = Some enrolled
    ∧ enrolled ⊆ dom (courses (serve_all empty_store demo_hits)).
Proof.
  exists {[1]}. split; [vm_compute; reflexivity|].
  apply (enrolled_courses_always_exist demo_hits empty_store
           empty_store_enrolled 2).
  vm_compute. reflexivity.
Defined.

Lemma instructors_always_faculty_witness :
  ∃ u, users (serve_all empty_store demo_hits) !! 1 = Some u
       ∧ role u = "Faculty".
Proof.
  apply (instructors_always_faculty demo_hits empty_store
           empty_store_instructors 1 (mkCourse "Logic" "CS101" "4" 1)).
  vm_compute. reflexivity.
Defined.

Lemma roles_always_known_witness :
  ∃ u, users (serve_all empty_store demo_hits) !! 2 = Some u
       ∧ (role u = "Student" ∨ role u = "Faculty").
Proof.
  exists (mkUser "stud" "stud@x.org" (demo_hash "pw2") "Student").
  split; [vm_compute; reflexivity|].
  apply (roles_always_known demo_hits empty_store empty_store_roles 2).
  vm_compute. reflexivity.
Defined.

Lemma usernames_stay_unique_witness :
  ∃ u, users (serve_all empty_store demo_hits) !! 1 = Some u
       ∧ ∀ k u', users (serve_all empty_store demo_hits) !! k = Some u' →
                 username u' = username u → k = 1.
Proof.
  exists (mkUser "prof" "prof@x.org" (demo_hash "pw1") "Faculty").
  split; [vm_compute; reflexivity|].
  intros k u' Hk Heq.
  apply (usernames_stay_unique demo_hits empty_store
           demo_authenticate_stored empty_store_usernames
           k 1 u' (mkUser "prof" "prof@x.org" (demo_hash "pw1") "Faculty") Hk);
    [vm_compute; reflexivity|exact Heq].
Defined.

(** jane is still stored after her login, as jane, now with the role
    Faculty. *)
Lemma users_persist_witness :
  ∃ u', users (serve_all demo_store jane_logs_in) !! 5 = Some u'
        ∧ username u' = "faculty_jane" ∧ email u' = "jane@x.org"
        ∧ password u' = demo_hash "pw5"
        ∧ (role u' = "Student" ∨ role u' = "Faculty").
Proof.
  apply (users_persist jane_logs_in demo_store 5 jane.2).
  - exact demo_authenticate_stored.
  - reflexivity.
Defined.

(** dora, who has course 1, enrols in course 3. *)
Lemma enroll_below_limit_witness :
  let request := form [("action", "enroll"); ("course_id", "3")] in
  let result := student_dashboard_POST request (demo_world (Some 4)) in
  flash result.2 = [(success, "Successfully enrolled in Optics")]
  ∧ enrolled_of (db result.2) 4 = {[3]} ∪ {[1]}.
Proof.
  destruct (enroll_below_limit (demo_world (Some 4))
              (form [("action", "enroll"); ("course_id", "3")]) dora optics)
    as (Hres & Hafter & _).
  - reflexivity.
  - reflexivity.
  - reflexivity.
  - exists "3". repeat split; reflexivity.
  - vm_compute. lia.
  - cbv zeta. split; [by rewrite Hres|exact Hafter].
Defined.

(** dora posts an unknown action on a course that does not exist. *)
Lemma course_lookup_comes_first_witness :
  student_dashboard_POST (form [("action", "peek"); ("course_id", "9")])
    (demo_world (Some 4))
  = (inr (Redirect "student-dashboard"),
     flashed (demo_world (Some 4)) error CourseNotFound).
Proof.
  rewrite (course_lookup_comes_first (demo_world (Some 4))
             (form [("action", "peek"); ("course_id", "9")]) dora).
  - reflexivity.
  - reflexivity.
  - reflexivity.
  - right. exists "9", 9. repeat split; reflexivity.
Defined.

(** dora enrols in course 3 and drops it again. *)
Lemma enroll_then_drop_witness :
  db (student_dashboard_POST (form [("action", "drop"); ("course_id", "3")])
        (student_dashboard_POST
           (form [("action", "enroll"); ("course_id", "3")])
           (demo_world (Some 4))).2).2
  = demo_store.
Proof.
  rewrite (enroll_then_drop (demo_world (Some 4))
             (form [("action", "enroll"); ("course_id", "3")])
             (form [("action", "drop"); ("course_id", "3")]) dora optics).
  - reflexivity.
  - reflexivity.
  - reflexivity.
  - reflexivity.
  - reflexivity.
  - reflexivity.
  - exists "3". repeat split; reflexivity.
  - vm_compute. lia.
  - apply (bool_decide_unpack _). vm_compute. exact I.
Defined.

(** ann, a faculty user, posts 'enroll' to the student dashboard. *)
Lemma student_dashboard_gate_witness :
  student_dashboard_POST (form [("action", "enroll"); ("course_id", "3")])
    (demo_world (Some 1))
  = (inr (Redirect "login"), flashed (demo_world (Some 1)) error AccessDenied).
Proof.
  destruct (student_dashboard_gate (demo_world (Some 1))
              (form [("action", "enroll"); ("course_id", "3")]))
    as (_ & Hdenied & _).
  - intros user Huser. vm_compute in Huser. injection Huser as <-.
    discriminate.
  - apply Hdenied. by eexists.
Defined.

(** carl, a student, posts 'create' to the faculty dashboard. *)
Lemma faculty_dashboard_gate_witness :
  faculty_dashboard_POST
    (form [("action", "create"); ("name", "Mine"); ("code", "X1");
           ("credits", "9")])
    (demo_world (Some 3))
  = (inr (Redirect "login"),
     flashed (demo_world (Some 3)) error AccessDeniedFaculty).
Proof.
  destruct (faculty_dashboard_gate (demo_world (Some 3))
              (form [("action", "create"); ("name", "Mine"); ("code", "X1");
                     ("credits", "9")]))
    as (_ & Hdenied & _).
  - intros user Huser. vm_compute in Huser. injection Huser as <-.
    discriminate.
  - apply Hdenied. by eexists.
Defined.

(** ann's dashboard lists her course 1 and not bob's course 3. *)
Lemma faculty_dashboard_lists_own_courses_witness :
  ∃ listed,
    faculty_dashboard_GET (form []) (demo_world (Some 1))
    = (inr (Render "faculty-dashboard.html" (FacultyContext listed)),
       demo_world (Some 1))
    ∧ listed !! 1 = Some logic.2
    ∧ listed !! 3 = None.
Proof.
  destruct (faculty_dashboard_lists_own_courses (demo_world (Some 1))
              (form []) ann) as (listed & Hres & Hlisted).
  - reflexivity.
  - reflexivity.
  - exists listed. split; [exact Hres|]. split.
    + apply Hlisted. split; reflexivity.
    + destruct (listed !! 3) as [c|] eqn:Hc; [|reflexivity].
      apply Hlisted in Hc as [Hc Hi]. vm_compute in Hc.
      injection Hc as <-. discriminate.
Defined.


(** ann deletes her course 1, in which carl and dora are enrolled. *)
Lemma delete_own_course_witness :
  let request := form [("action", "delete"); ("course_id", "1")] in
  let result := faculty_dashboard_POST request (demo_world (Some 1)) in
  courses (db result.2) !! 1 = None
  ∧ enrolled_of (db result.2) 3 = {[1; 2]} ∖ {[1]}
  ∧ faculty_dashboard_POST request result.2
    = (inr (Redirect "faculty-dashboard"),
       flashed result.2 error CourseNotFound).
Proof.
  destruct (delete_own_course (demo_world (Some 1))
              (form [("action", "delete"); ("course_id", "1")]) ann "1" logic)
    as (_ & _ & Hgone & Henrolled & _ & Hagain).
  - reflexivity.
  - reflexivity.
  - reflexivity.
  - reflexivity.
  - discriminate.
  - split; [|reflexivity]. exists "1". repeat split; reflexivity.
  - cbv zeta. split; [exact Hgone|]. split; [exact (Henrolled 3)|exact Hagain].
Defined.

(** carl logs in. *)
Lemma login_without_repair_witness :
  LoginView_post (form [("username", "carl"); ("password", "pw3")])
    (demo_world None)
  = (inr (Redirect "student-dashboard"), demo_world (Some 3)).
Proof.
  rewrite (login_without_repair (demo_world None)
             (form [("username", "carl"); ("password", "pw3")])
             "carl" "pw3" carl).
  - reflexivity.
  - reflexivity.
  - reflexivity.
  - discriminate.
  - discriminate.
  - reflexivity.
  - by left.
Defined.

(** carl logs in and then opens the login page. *)
Lemma login_page_after_login_witness :
  LoginView_get (mkQuery ∅)
    (LoginView_post (form [("username", "carl"); ("password", "pw3")])
       (demo_world None)).2
  = (inr (Redirect "student-dashboard"), demo_world (Some 3)).
Proof.
  rewrite (login_page_after_login (demo_world None)
             (form [("username", "carl"); ("password", "pw3")])
             (mkQuery ∅) "carl" "pw3" carl).
  - reflexivity.
  - exact demo_authenticate_stored.
  - reflexivity.
  - reflexivity.
  - discriminate.
  - discriminate.
  - reflexivity.
  - discriminate.
Defined.

(** "faculty_zed" registers as a student and logs in. *)
Lemma student_named_faculty_witness :
  let register := form [("username", "faculty_zed"); ("email", "zed@x.org");
                        ("password", "pw6"); ("role", "Student")] in
  let login_ := form [("username", "faculty_zed"); ("password", "pw6")] in
  let logged :=
    LoginView_post login_ (RegisterView_post register (demo_world None)).2 in
  logged.1 = inr (Redirect "faculty-dashboard")
  ∧ role <$> users (db logged.2) !! 6 = Some "Faculty"
  ∧ students (db logged.2) !! 6 = Some ∅.
Proof.
  destruct (student_named_faculty (demo_world None)
              (form [("username", "faculty_zed"); ("email", "zed@x.org");
                     ("password", "pw6"); ("role", "Student")])
              (form [("username", "faculty_zed"); ("password", "pw6")])
              "faculty_zed" "zed@x.org" "pw6" "Student")
    as (Hresp & Hrole & Hprofile & _).
  - reflexivity.
  - reflexivity.
  - reflexivity.
  - reflexivity.
  - discriminate.
  - discriminate.
  - discriminate.
  - discriminate.
  - intros Htaken%username_taken_row. vm_compute in Htaken. discriminate.
  - intros Htaken%email_taken_row. vm_compute in Htaken. discriminate.
  - unfold profiles_have_users. apply (bool_decide_unpack _). vm_compute.
    exact I.
  - reflexivity.
  - reflexivity.
  - reflexivity.
  - reflexivity.
  - vm_compute. reflexivity.
  - cbv zeta. split; [exact Hresp|]. split; [exact Hrole|exact Hprofile].
Defined.

(** "eve" registers as a student, logs in and opens the dashboard. *)
Lemma register_login_dashboard_witness :
  let register := form [("username", "eve"); ("email", "eve@x.org");
                        ("password", "pw6"); ("role", "student")] in
  let login_ := form [("username", "eve"); ("password", "pw6")] in
  let logged :=
    LoginView_post login_ (RegisterView_post register (demo_world None)).2 in
  logged.1 = inr (Redirect "student-dashboard")
  ∧ student_dashboard_GET (form []) logged.2
    = (inr (Render "student-dashboard.html"
              (StudentContext ∅ demo_courses true)),
       logged.2).
Proof.
  apply (register_login_dashboard (demo_world None)
           (form [("username", "eve"); ("email", "eve@x.org");
                  ("password", "pw6"); ("role", "student")])
           (form [("username", "eve"); ("password", "pw6")]) (form [])
           "eve" "eve@x.org" "pw6" "student").
  - reflexivity.
  - reflexivity.
  - reflexivity.
  - reflexivity.
  - discriminate.
  - discriminate.
  - discriminate.
  - discriminate.
  - intros Htaken%username_taken_row. vm_compute in Htaken. discriminate.
  - intros Htaken%email_taken_row. vm_compute in Htaken. discriminate.
  - unfold profiles_have_users. apply (bool_decide_unpack _). vm_compute.
    exact I.
  - reflexivity.
  - reflexivity.
  - reflexivity.
  - reflexivity.
  - vm_compute. reflexivity.
Defined.

(** ann sends a new name for her course 1 together with credits that the
    store refuses: nothing is saved. *)
Lemma update_refused_value_witness :
  let request := form [("action", "update"); ("course_id", "1");
                       ("name", "Logic II"); ("credits", "abc")] in
  faculty_dashboard_POST request (demo_world (Some 1))
  = (inr (Redirect "faculty-dashboard"),
     flashed (demo_world (Some 1)) error
       "Field 'credits' expected a number but got 'abc'.").
Proof.
  cbv zeta.
  rewrite (update_refused_value (demo_world (Some 1))
             (form [("action", "update"); ("course_id", "1");
                    ("name", "Logic II"); ("credits", "abc")])
             ann logic "abc" (BadValue "credits" "abc")).
  - reflexivity.
  - reflexivity.
  - reflexivity.
  - reflexivity.
  - reflexivity.
  - split; [|reflexivity]. exists "1". repeat split; reflexivity.
  - reflexivity.
  - reflexivity.
Defined.

